(** * can_dbc_reader: the DBC text reader of python-interfaces

    A shallow embedding of [get_can] (python-interfaces/can_dbc_reader.py)
    and the properties of its line loop.

    The reader scans a DBC text line by line.  A [BO_] line opens a message
    and stores a fresh entry in the dictionary [can_db]; an [SG_] line met
    while a message is open stores a signal under that entry; a line with no
    token closes the open message; every other line is passed over.

    Conventions of the embedding.
    - Text is [string], a sequence of 8-bit characters; the model covers
      ASCII text (a character above 127 is never white space nor a digit).
    - The dictionaries are [gmap]s: [can_db] is keyed by the arbitration id
      (a Python [int], here [Z]), ['species'] by the signal name.
    - A Python exception is a value [Raise e] of the type [result]; the loop
      stops at the first one, as an uncaught exception leaves [get_can].
    - A Python [float] is represented by the rational number its decimal
      literal denotes, in lowest terms; rounding to binary64 and overflow
      to infinity are not modelled.
    - The conversions follow Python 3: [int] as the language reference
      gives it for base 10, [ast.literal_eval] on a stated fragment of the
      literal syntax (see [Py.literal_eval]). *)

From Stdlib Require Import ZArith NArith QArith Ascii String List Bool Lia.
From stdpp Require Import base gmap strings.

Local Open Scope string_scope.
Local Open Scope Z_scope.

(** ** Outcomes and values *)

(** The exceptions the reader can raise.  [NotModelled] is not a Python
    exception: it marks a token outside the fragment of the literal syntax
    that [Py.literal_eval] covers, where the model says nothing. *)
Inductive exn : Type :=
  | IndexError
  | KeyError
  | ValueError
  | SyntaxError
  | NotModelled.

Inductive result (A : Type) : Type :=
  | Ok (a : A)
  | Raise (e : exn).
Arguments Ok {A} a.
Arguments Raise {A} e.

#[global] Instance result_ret : MRet result := fun A a => Ok a.
#[global] Instance result_bind : MBind result := fun A B f m =>
  match m with
  | Ok a => f a
  | Raise e => Raise e
  end.

(** The values [ast.literal_eval] produces on the modelled fragment. *)
Inductive pyval : Type :=
  | PyNone
  | PyBool (b : bool)
  | PyInt (z : Z)
  | PyFloat (q : Q).

(** [l[i]] for a list and a non-negative index. *)
Definition index {A : Type} (l : list A) (i : nat) : result A :=
  match l !! i with
  | Some x => Ok x
  | None => Raise IndexError
  end.

(** ** The built-in operations the reader calls *)

Module Py.

Definition code (c : ascii) : N := N_of_ascii c.

(** [str.isspace] on one ASCII character: TAB, LF, VT, FF, CR, the four
    separators FS, GS, RS, US, and the space. *)
Definition is_space (c : ascii) : bool :=
  ((9 <=? code c) && (code c <=? 13) || (28 <=? code c) && (code c <=? 32))%N.

Definition is_digit (c : ascii) : bool :=
  ((48 <=? code c) && (code c <=? 57))%N.

Definition digit_value (c : ascii) : N := (code c - 48)%N.

Definition is_empty (s : string) : bool :=
  match s with
  | EmptyString => true
  | String _ _ => false
  end.

(** [s.split()]: the maximal runs of characters that are not white
    space, in order.  [tok] is the run being read. *)
Fixpoint split_from (tok : string) (s : string) : list string :=
  match s with
  | EmptyString => if is_empty tok then [] else [tok]
  | String c s' =>
      if is_space c
      then (if is_empty tok then split_from "" s' else tok :: split_from "" s')
      else split_from (tok ++ String c "") s'
  end.

Definition split (s : string) : list string := split_from "" s.

(** [s.split(sep)] for a separator of one character: always at least one
    piece, the pieces between the occurrences of [sep]. *)
Fixpoint split_sep (sep : ascii) (s : string) : list string :=
  match s with
  | EmptyString => [""]
  | String c s' =>
      if Ascii.eqb c sep then "" :: split_sep sep s'
      else match split_sep sep s' with
           | piece :: pieces => String c piece :: pieces
           | [] => [String c ""]
           end
  end.

(** [s.replace(old, new)] for [old] of one character, as in every call
    of the reader. *)
Fixpoint replace (old : ascii) (new : string) (s : string) : string :=
  match s with
  | EmptyString => ""
  | String c s' =>
      if Ascii.eqb c old then new ++ replace old new s'
      else String c (replace old new s')
  end.

(** [s[:-1]]: all characters but the last; the empty string stays
    empty. *)
Fixpoint drop_last (s : string) : string :=
  match s with
  | EmptyString => ""
  | String c s' => if is_empty s' then "" else String c (drop_last s')
  end.

Fixpoint lstrip (s : string) : string :=
  match s with
  | EmptyString => ""
  | String c s' => if is_space c then lstrip s' else s
  end.

Fixpoint rstrip (s : string) : string :=
  match s with
  | EmptyString => ""
  | String c s' =>
      let r := rstrip s' in
      if is_space c && is_empty r then "" else String c r
  end.

Definition strip (s : string) : string := rstrip (lstrip s).

(** The digits of a base-10 [int] argument, after the sign: digits with
    single underscores between them.  [acc] is the value read so far,
    [after_digit] tells that the previous character was a digit. *)
Fixpoint int_digits (acc : N) (after_digit : bool) (s : string) : option N :=
  match s with
  | EmptyString => if after_digit then Some acc else None
  | String c s' =>
      if is_digit c then int_digits (10 * acc + digit_value c) true s'
      else if Ascii.eqb c "_" then
        (if after_digit then int_digits acc false s' else None)
      else None
  end.

(** [int(s)] on a string: surrounding white space is dropped, then an
    optional sign and the digits.  Anything else is a [ValueError].  (The
    interpreter's configurable limit on the number of digits is left
    out.) *)
Definition int (s : string) : result Z :=
  let body := strip s in
  let (negative, ds) :=
    match body with
    | String c ds' =>
        if Ascii.eqb c "-" then (true, ds')
        else if Ascii.eqb c "+" then (false, ds')
        else (false, body)
    | EmptyString => (false, body)
    end in
  match int_digits 0 false ds with
  | Some n => Ok (if negative then - Z.of_N n else Z.of_N n)
  | None => Raise ValueError
  end.

(** *** [ast.literal_eval], on a fragment of the literal syntax

    The fragment: [None], [True], [False], and a number with at most one
    sign in front, the number being a run of decimal digits (an [int]) or
    digits with one decimal point (a [float]).  Python 3 refuses a
    decimal integer literal with a leading zero unless all its digits are
    zero.  Two kinds of token that are no literal are covered as well: the
    empty string, a [SyntaxError], and a name (a letter or underscore
    followed by letters, digits and underscores), which is a
    [SyntaxError] when it is a keyword and else parses as a variable and
    is refused with a [ValueError].  Every other token (exponents,
    underscores, other bases, strings, containers, ...) is outside the
    fragment and gives [Raise NotModelled]. *)

Definition is_letter (c : ascii) : bool :=
  ((65 <=? code c) && (code c <=? 90) || (97 <=? code c) && (code c <=? 122))%N.

Definition is_name_start (c : ascii) : bool := is_letter c || Ascii.eqb c "_".

Definition is_name_char (c : ascii) : bool := is_name_start c || is_digit c.

Fixpoint all_name_chars (s : string) : bool :=
  match s with
  | EmptyString => true
  | String c s' => is_name_char c && all_name_chars s'
  end.

Definition is_name (s : string) : bool :=
  match s with
  | String c s' => is_name_start c && all_name_chars s'
  | EmptyString => false
  end.

(** The keywords of Python 3 (from 3.7 on), [None], [True] and [False]
    apart. *)
Definition keywords : list string :=
  [ "and"; "as"; "assert"; "async"; "await"; "break"; "class"; "continue";
    "def"; "del"; "elif"; "else"; "except"; "finally"; "for"; "from";
    "global"; "if"; "import"; "in"; "is"; "lambda"; "nonlocal"; "not";
    "or"; "pass"; "raise"; "return"; "try"; "while"; "with"; "yield" ].

Definition is_keyword (s : string) : bool := existsb (String.eqb s) keywords.

Fixpoint all_digits (s : string) : bool :=
  match s with
  | EmptyString => true
  | String c s' => is_digit c && all_digits s'
  end.

Fixpoint all_zeros (s : string) : bool :=
  match s with
  | EmptyString => true
  | String c s' => Ascii.eqb c "0" && all_zeros s'
  end.

Fixpoint digits_value (acc : N) (s : string) : N :=
  match s with
  | EmptyString => acc
  | String c s' => digits_value (10 * acc + digit_value c) s'
  end.

Definition pow10 (k : nat) : positive := Nat.iter k (Pos.mul 10) 1%positive.

Definition leading_zero (s : string) : bool :=
  match s with
  | String c _ => Ascii.eqb c "0" && negb (all_zeros s)
  | EmptyString => false
  end.

(** A number literal without sign. *)
Definition number (s : string) : result pyval :=
  match split_sep "." s with
  | [ip] =>
      if all_digits ip && negb (is_empty ip) then
        if leading_zero ip then Raise SyntaxError
        else Ok (PyInt (Z.of_N (digits_value 0 ip)))
      else Raise NotModelled
  | [ip; fp] =>
      if all_digits ip && all_digits fp && negb (is_empty ip && is_empty fp)
      then Ok (PyFloat (Qred (Z.of_N (digits_value 0 (ip ++ fp))
                                # pow10 (String.length fp))))
      else Raise NotModelled
  | _ => Raise NotModelled
  end.

Definition negate (v : pyval) : pyval :=
  match v with
  | PyInt z => PyInt (- z)
  | PyFloat q => PyFloat (- q)
  | v => v
  end.

Definition literal_eval (s : string) : result pyval :=
  if String.eqb s "None" then Ok PyNone
  else if String.eqb s "True" then Ok (PyBool true)
  else if String.eqb s "False" then Ok (PyBool false)
  else if is_empty s then Raise SyntaxError
  else if is_name s then
    (if is_keyword s then Raise SyntaxError else Raise ValueError)
  else match s with
       | String c u =>
           if Ascii.eqb c "-" then v ← number u; Ok (negate v)
           else if Ascii.eqb c "+" then number u
           else number s
       | EmptyString => number s
       end.

End Py.

(** ** The lookup table

    [can_db] maps an arbitration id to a message dictionary with the keys
    ['family'], ['genus'], ['species'] and ['frame_bytes']; ['species'] maps
    a signal name to a signal dictionary with the keys ['end_bit'],
    ['length'], ['factor'], ['offset'], ['minimum'], ['maximum'],
    ['description'] and ['value'].  The records below have one field per
    key, with the prefix [sg_] or [bo_]. *)

Record signal : Type := {
  sg_end_bit : Z;
  sg_length : Z;
  sg_factor : pyval;
  sg_offset : pyval;
  sg_minimum : pyval;
  sg_maximum : pyval;
  sg_description : string;
  sg_value : pyval
}.

Record message : Type := {
  bo_family : string;
  bo_genus : string;
  bo_species : gmap string signal;
  bo_frame_bytes : Z
}.

(** The local variables of [get_can] that live across the iterations of
    its loop.  [current_BO] is [None] both before its first assignment and
    after a line without token has set it to Python's [None]. *)
Record state : Type := {
  can_db : gmap Z message;
  Flag : bool;
  current_BO : option Z
}.

Definition initial : state :=
  {| can_db := ∅; Flag := false; current_BO := None |}.

(** [can_db[current_BO]]: the key and the message dictionary found under
    it; a [KeyError] when [current_BO] is no key of [can_db]. *)
Definition open_message (st : state) : result (Z * message) :=
  match current_BO st with
  | Some k =>
      match can_db st !! k with
      | Some m => Ok (k, m)
      | None => Raise KeyError
      end
  | None => Raise KeyError
  end.

Definition first_is (line_array : list string) (word : string) : bool :=
  match line_array with
  | t :: _ => String.eqb t word
  | [] => false
  end.

(** The three token splits of the signal branch, each as a function of the
    token it is taken from: [line_array[3]], [line_array[4]] and
    [line_array[5]]. *)
Definition split_range (t : string) : list string :=
  Py.split_sep "|" (Py.replace "@" "|" t).

Definition factor_offset (t : string) : list string :=
  Py.split_sep "," (Py.replace ")" "" (Py.replace "(" "" t)).

Definition value_range (t : string) : list string :=
  Py.split_sep "|" (Py.replace "]" "" (Py.replace "[" "" t)).

(** ** The loop of [get_can] *)

Section reader.

(** The evaluator of the factor, offset, minimum and maximum tokens.  The
    loop is defined, and its general properties are proved, for any
    evaluator; [Py.literal_eval] is the one the examples run with. *)
Variable literal_eval : string → result pyval.

(** The branch [elif Flag and line_array[0] == 'SG_'], in the order in
    which Python evaluates it: the three token splits, the right-hand
    dictionary field by field, then the target of the assignment. *)
Definition signal_entry (st : state) (line_array : list string) : result state :=
  t3 ← index line_array 3;
  t4 ← index line_array 4;
  t5 ← index line_array 5;
  r0 ← index (split_range t3) 0;
  end_bit ← Py.int r0;
  r1 ← index (split_range t3) 1;
  len ← Py.int r1;
  f0 ← index (factor_offset t4) 0;
  factor ← literal_eval f0;
  f1 ← index (factor_offset t4) 1;
  offset ← literal_eval f1;
  v0 ← index (value_range t5) 0;
  minimum ← literal_eval v0;
  v1 ← index (value_range t5) 1;
  maximum ← literal_eval v1;
  description ← index line_array 6;
  km ← open_message st;
  let k := km.1 in
  let m := km.2 in
  name ← index line_array 1;
  let sg := {| sg_end_bit := end_bit; sg_length := len;
               sg_factor := factor; sg_offset := offset;
               sg_minimum := minimum; sg_maximum := maximum;
               sg_description := description; sg_value := PyNone |} in
  let m' := {| bo_family := bo_family m; bo_genus := bo_genus m;
               bo_species := <[name := sg]> (bo_species m);
               bo_frame_bytes := bo_frame_bytes m |} in
  Ok {| can_db := <[k := m']> (can_db st); Flag := Flag st;
        current_BO := current_BO st |}.

(** The branch [elif line_array[0] == 'BO_']: the right-hand dictionary
    first, then the key of the target, then the two assignments. *)
Definition message_start (st : state) (line_array : list string) : result state :=
  family ← index line_array 4;
  t2 ← index line_array 2;
  let genus := Py.drop_last t2 in
  t3 ← index line_array 3;
  frame_bytes ← Py.int t3;
  t1 ← index line_array 1;
  k ← Py.int t1;
  let m := {| bo_family := family; bo_genus := genus; bo_species := ∅;
              bo_frame_bytes := frame_bytes |} in
  Ok {| can_db := <[k := m]> (can_db st); Flag := true;
        current_BO := Some k |}.

(** One iteration of [for line in dbc_file]. *)
Definition step (st : state) (line : string) : result state :=
  let line_array := Py.split line in
  if Nat.eqb (length line_array) 0 then
    Ok {| can_db := can_db st; Flag := false; current_BO := None |}
  else if Flag st && first_is line_array "SG_" then
    signal_entry st line_array
  else if first_is line_array "BO_" then
    message_start st line_array
  else Ok st.

(** The whole loop, from a given state; it stops at the first exception. *)
Fixpoint run (st : state) (dbc_file : list string) : result state :=
  match dbc_file with
  | [] => Ok st
  | line :: rest => st' ← step st line; run st' rest
  end.

(** [get_can], on the lines of the file it opens. *)
Definition get_can (dbc_file : list string) : result (gmap Z message) :=
  st ← run initial dbc_file; Ok (can_db st).

End reader.

Arguments signal_entry literal_eval st line_array : simpl never.
Arguments message_start st line_array : simpl never.

(** ** Auxiliary notions used in the statements *)

(** A line all of whose characters are white space. *)
Fixpoint blank (s : string) : bool :=
  match s with
  | EmptyString => true
  | String c s' => Py.is_space c && blank s'
  end.

(** The characters of a string that [Py.int] accepts. *)
Definition int_char (c : ascii) : bool :=
  Py.is_space c || Py.is_digit c || Ascii.eqb c "+" || Ascii.eqb c "-"
  || Ascii.eqb c "_".

Fixpoint all_chars (p : ascii → bool) (s : string) : bool :=
  match s with
  | EmptyString => true
  | String c s' => p c && all_chars p s'
  end.



(** The first two pieces of a split token evaluate to [a] and [b]. *)
Definition pair_evaluates (literal_eval : string → result pyval)
    (pieces : list string) (a b : pyval) : Prop :=
  ∃ p0 p1 more, pieces = p0 :: p1 :: more
                ∧ literal_eval p0 = Ok a ∧ literal_eval p1 = Ok b.

(** The invariant of the loop: when [Flag] is set, [current_BO] is a key of
    [can_db]. *)
Definition open_ok (st : state) : Prop :=
  Flag st = true → ∃ k m, open_message st = Ok (k, m).

(** ** Facts about the string operations *)

Lemma split_from_nil tok s :
  Py.split_from tok s = [] ↔ tok = "" ∧ blank s = true.
Proof.
  revert tok; induction s as [|c s IH]; intros tok; simpl.
  - destruct tok; simpl; split; try done. by intros [? _].
  - destruct (Py.is_space c); simpl.
    + destruct tok; simpl.
      * rewrite IH. tauto.
      * split; [done | by intros [? _]].
    + rewrite IH. split; [|by intros [_ ?]].
      intros [H _]. by destruct tok.
Qed.

Lemma split_nil_blank line : Py.split line = [] ↔ blank line = true.
Proof. unfold Py.split. rewrite split_from_nil. tauto. Qed.

Lemma drop_last_snoc g c : Py.drop_last (g ++ String c "") = g.
Proof.
  induction g as [|a g IH]; simpl; [done|].
  rewrite IH. by destruct g.
Qed.

(** ** The branches of one iteration *)

Section branches.

Variable literal_eval : string → result pyval.

Lemma step_blank st line :
  Py.split line = [] →
  step literal_eval st line
  = Ok {| can_db := can_db st; Flag := false; current_BO := None |}.
Proof. intros H. unfold step. by rewrite H. Qed.

Lemma step_skip st line t ts :
  Py.split line = t :: ts →
  t ≠ "BO_" →
  Flag st = false ∨ t ≠ "SG_" →
  step literal_eval st line = Ok st.
Proof.
  intros H Hbo Hsg. unfold step. rewrite H. simpl.
  assert (String.eqb t "BO_" = false) as -> by by apply String.eqb_neq.
  destruct Hsg as [-> | Hsg]; [done|].
  apply String.eqb_neq in Hsg. rewrite Hsg.
  by rewrite andb_false_r.
Qed.

Lemma step_message_start st line ts :
  Py.split line = "BO_" :: ts →
  step literal_eval st line = message_start st ("BO_" :: ts).
Proof.
  intros H. unfold step. rewrite H. simpl. by rewrite andb_false_r.
Qed.

Lemma step_signal_entry st line ts :
  Flag st = true →
  Py.split line = "SG_" :: ts →
  step literal_eval st line = signal_entry literal_eval st ("SG_" :: ts).
Proof. intros HF H. unfold step. rewrite H, HF. done. Qed.

(** A [BO_] line with its five tokens and two integers. *)
Lemma message_start_ok st t1 t2 t3 t4 rest k fb :
  Py.int t1 = Ok k →
  Py.int t3 = Ok fb →
  message_start st ("BO_" :: t1 :: t2 :: t3 :: t4 :: rest)
  = Ok {| can_db := <[k := {| bo_family := t4;
                             bo_genus := Py.drop_last t2;
                             bo_species := ∅;
                             bo_frame_bytes := fb |}]> (can_db st);
          Flag := true;
          current_BO := Some k |}.
Proof.
  intros H1 H3. unfold message_start, index. simpl.
  rewrite H3. simpl. rewrite H1. done.
Qed.

(** An [SG_] line under an open message, all of whose fields convert. *)
Lemma signal_entry_ok st k m name mux rng fo mm desc rest
    r0 r1 rs e l factor offset minimum maximum :
  current_BO st = Some k →
  can_db st !! k = Some m →
  split_range rng = r0 :: r1 :: rs →
  Py.int r0 = Ok e →
  Py.int r1 = Ok l →
  pair_evaluates literal_eval (factor_offset fo) factor offset →
  pair_evaluates literal_eval (value_range mm) minimum maximum →
  signal_entry literal_eval st
    ("SG_" :: name :: mux :: rng :: fo :: mm :: desc :: rest)
  = Ok {| can_db :=
            <[k := {| bo_family := bo_family m;
                      bo_genus := bo_genus m;
                      bo_species :=
                        <[name := {| sg_end_bit := e; sg_length := l;
                                     sg_factor := factor;
                                     sg_offset := offset;
                                     sg_minimum := minimum;
                                     sg_maximum := maximum;
                                     sg_description := desc;
                                     sg_value := PyNone |}]>
                          (bo_species m);
                      bo_frame_bytes := bo_frame_bytes m |}]> (can_db st);
          Flag := Flag st;
          current_BO := current_BO st |}.
Proof.
  intros Hk Hm Hr H0 H1 (f0 & f1 & fs & Hf & Hf0 & Hf1)
    (v0 & v1 & vs & Hv & Hv0 & Hv1).
  unfold signal_entry, index, open_message. simpl.
  rewrite Hr. simpl. rewrite H0. simpl. rewrite H1. simpl.
  rewrite Hf. simpl. rewrite Hf0. simpl. rewrite Hf1. simpl.
  rewrite Hv. simpl. rewrite Hv0. simpl. rewrite Hv1. simpl.
  rewrite Hk, Hm. done.
Qed.

Lemma run_app st (pre post : list string) :
  run literal_eval st (pre ++ post)%list
  = st' ← run literal_eval st pre; run literal_eval st' post.
Proof.
  revert st; induction pre as [|line pre IH]; intros st; simpl; [done|].
  destruct (step literal_eval st line); simpl; [apply IH | done].
Qed.

(** *** The invariant *)

Lemma open_ok_initial : open_ok initial.
Proof. intros H. discriminate H. Qed.

Lemma message_start_open_ok st line_array st' :
  message_start st line_array = Ok st' → open_ok st'.
Proof.
  unfold message_start, index. intros H.
  destruct (line_array !! 4%nat); simpl in H; [|done].
  destruct (line_array !! 2%nat); simpl in H; [|done].
  destruct (line_array !! 3%nat) as [t3|]; simpl in H; [|done].
  destruct (Py.int t3); simpl in H; [|done].
  destruct (line_array !! 1%nat) as [t1|]; simpl in H; [|done].
  destruct (Py.int t1) as [k|]; simpl in H; [|done].
  injection H as <-. intros _. unfold open_message; simpl.
  rewrite lookup_insert_eq. eauto.
Qed.

Lemma bind_Ok {A B} (m : result A) (f : A → result B) b :
  (x ← m; f x) = Ok b → ∃ a, m = Ok a ∧ f a = Ok b.
Proof. destruct m; simpl; [eauto | done]. Qed.

Lemma signal_entry_open_ok st line_array st' :
  signal_entry literal_eval st line_array = Ok st' → open_ok st'.
Proof.
  unfold signal_entry. intros H.
  do 16 (apply bind_Ok in H as (? & _ & H)).
  apply bind_Ok in H as ([k m] & Hopen & H).
  apply bind_Ok in H as (name & _ & H).
  injection H as <-. intros _. unfold open_message in *; simpl in *.
  destruct (current_BO st) as [k'|]; [|done].
  destruct (can_db st !! k'); [|done].
  injection Hopen as -> _.
  rewrite lookup_insert_eq. eauto.
Qed.

Lemma step_open_ok st line st' :
  open_ok st → step literal_eval st line = Ok st' → open_ok st'.
Proof.
  intros Hst. unfold step.
  destruct (length (Py.split line) =? 0)%nat.
  { intros [= <-]. intros H. discriminate H. }
  destruct (Flag st && first_is (Py.split line) "SG_").
  { apply signal_entry_open_ok. }
  destruct (first_is (Py.split line) "BO_").
  { apply message_start_open_ok. }
  by intros [= <-].
Qed.

Lemma run_open_ok st lines st' :
  open_ok st → run literal_eval st lines = Ok st' → open_ok st'.
Proof.
  revert st; induction lines as [|line lines IH]; intros st Hst; simpl.
  - by intros [= <-].
  - intros H. apply bind_Ok in H as (st1 & H1 & H).
    eapply IH; [|exact H]. eapply step_open_ok; eauto.
Qed.

(** *** Where a run stops *)

Lemma run_outcome st lines :
  (∃ st', run literal_eval st lines = Ok st')
  ∨ (∃ (pre : list string) line post st1 e,
        lines = (pre ++ line :: post)%list
        ∧ run literal_eval st pre = Ok st1
        ∧ step literal_eval st1 line = Raise e
        ∧ run literal_eval st lines = Raise e).
Proof.
  revert st; induction lines as [|line lines IH]; intros st.
  - left. by exists st.
  - simpl. destruct (step literal_eval st line) as [st1|e] eqn:Hstep.
    + simpl. destruct (IH st1) as [[st' H] | (pre & l & post & st2 & e & -> & Hpre & Hl & H)].
      * left. eauto.
      * right. exists (line :: pre), l, post, st2, e. simpl.
        rewrite Hstep. simpl. done.
    + right. exists [], line, lines, st, e. done.
Qed.

End branches.

(** ** Facts about the conversions *)

Section conversions.

Implicit Types (s a b : string) (c sep old : ascii) (p : ascii → bool).

Lemma append_cons c a b : String c a ++ b = String c (a ++ b).
Proof. reflexivity. Qed.

Lemma append_empty b : "" ++ b = b.
Proof. reflexivity. Qed.

Lemma append_assoc_str a b s : (a ++ b) ++ s = a ++ (b ++ s).
Proof.
  induction a as [|c a IH]; [done|].
  by rewrite !append_cons, IH.
Qed.

Lemma all_chars_app p a b :
  all_chars p (a ++ b) = all_chars p a && all_chars p b.
Proof.
  induction a as [|c a IH]; [done|].
  rewrite append_cons. simpl. by rewrite IH, andb_assoc.
Qed.

Lemma all_chars_impl p (q : ascii → bool) s :
  (∀ c, p c = true → q c = true) →
  all_chars p s = true → all_chars q s = true.
Proof.
  intros Hpq. induction s as [|c s IH]; simpl; [done|].
  intros [Hc Hs]%andb_true_iff. by rewrite (Hpq _ Hc), IH.
Qed.

Lemma replace_app old new a b :
  Py.replace old new (a ++ b)
  = Py.replace old new a ++ Py.replace old new b.
Proof.
  induction a as [|c a IH]; [done|].
  rewrite append_cons. simpl. rewrite IH.
  destruct (Ascii.eqb c old); [|done].
  by rewrite append_assoc_str.
Qed.

Lemma replace_absent old new s :
  all_chars (λ c, negb (Ascii.eqb c old)) s = true →
  Py.replace old new s = s.
Proof.
  induction s as [|c s IH]; simpl; [done|].
  intros [Hc Hs]%andb_true_iff.
  apply negb_true_iff in Hc. by rewrite Hc, IH.
Qed.

Lemma split_sep_absent sep s :
  all_chars (λ c, negb (Ascii.eqb c sep)) s = true →
  Py.split_sep sep s = [s].
Proof.
  induction s as [|c s IH]; simpl; [done|].
  intros [Hc Hs]%andb_true_iff.
  apply negb_true_iff in Hc. by rewrite Hc, IH.
Qed.

Lemma split_sep_app sep a b :
  all_chars (λ c, negb (Ascii.eqb c sep)) a = true →
  Py.split_sep sep (a ++ String sep b) = a :: Py.split_sep sep b.
Proof.
  induction a as [|c a IH].
  - intros _. rewrite append_empty. simpl. by rewrite Ascii.eqb_refl.
  - rewrite append_cons. simpl. intros [Hc Hs]%andb_true_iff.
    apply negb_true_iff in Hc. by rewrite Hc, IH.
Qed.

(** *** [Py.int] *)

Lemma lstrip_chars p s :
  (∀ c, Py.is_space c = true → p c = true) →
  all_chars p (Py.lstrip s) = true → all_chars p s = true.
Proof.
  intros Hp. induction s as [|c s IH]; simpl; [done|].
  destruct (Py.is_space c) eqn:Hc; simpl.
  - intros H. by rewrite (Hp _ Hc), IH.
  - done.
Qed.

Lemma rstrip_chars p s :
  (∀ c, Py.is_space c = true → p c = true) →
  all_chars p (Py.rstrip s) = true → all_chars p s = true.
Proof.
  intros Hp. induction s as [|c s IH]; simpl; [done|].
  destruct (Py.is_space c) eqn:Hc; simpl.
  - destruct (Py.rstrip s) eqn:Hr; simpl.
    + intros _. rewrite (Hp _ Hc). by apply IH.
    + intros [_ H]%andb_true_iff. rewrite (Hp _ Hc). by apply IH.
  - intros [-> H]%andb_true_iff. by apply IH.
Qed.

Lemma strip_chars p s :
  (∀ c, Py.is_space c = true → p c = true) →
  all_chars p (Py.strip s) = true → all_chars p s = true.
Proof.
  intros Hp H. apply lstrip_chars; [done|]. by apply rstrip_chars.
Qed.


Lemma int_digits_chars acc after s n :
  Py.int_digits acc after s = Some n → all_chars int_char s = true.
Proof.
  revert acc after; induction s as [|c s IH]; intros acc after; simpl; [done|].
  unfold int_char at 1.
  destruct (Py.is_digit c) eqn:Hd.
  - intros H. rewrite (IH _ _ H). by rewrite orb_true_r.
  - destruct (Ascii.eqb c "_") eqn:Hu; [|done].
    destruct after; [|done].
    intros H. rewrite (IH _ _ H). by rewrite !orb_true_r.
Qed.

(** A string that [Py.int] converts holds only white space, digits,
    signs and underscores. *)
Lemma int_chars s z : Py.int s = Ok z → all_chars int_char s = true.
Proof.
  unfold Py.int. intros H.
  apply strip_chars; [by intros c Hc; unfold int_char; rewrite Hc|].
  destruct (Py.strip s) as [|c ds]; [done|].
  simpl. unfold int_char at 1.
  destruct (Ascii.eqb c "-") eqn:Hm.
  { destruct (Py.int_digits 0 false ds) eqn:Hds; [|done].
    rewrite (int_digits_chars _ _ _ _ Hds). by rewrite !orb_true_r. }
  destruct (Ascii.eqb c "+") eqn:Hp.
  { destruct (Py.int_digits 0 false ds) eqn:Hds; [|done].
    rewrite (int_digits_chars _ _ _ _ Hds). by rewrite !orb_true_r. }
  destruct (Py.int_digits 0 false (String c ds)) eqn:Hds; [|done].
  apply int_digits_chars in Hds. simpl in Hds. unfold int_char at 1 in Hds.
  by rewrite Hm, Hp in Hds.
Qed.

Lemma int_char_not c sep :
  int_char sep = false → int_char c = true → negb (Ascii.eqb c sep) = true.
Proof.
  intros Hsep Hc. apply negb_true_iff.
  destruct (Ascii.eqb_spec c sep) as [->|]; [congruence | done].
Qed.

(** [Py.int] raises nothing but [ValueError]. *)
Lemma int_total s : (∃ z, Py.int s = Ok z) ∨ Py.int s = Raise ValueError.
Proof.
  unfold Py.int.
  destruct (match Py.strip s with
            | String c ds' =>
                if Ascii.eqb c "-" then (true, ds')
                else if Ascii.eqb c "+" then (false, ds')
                else (false, Py.strip s)
            | EmptyString => (false, Py.strip s)
            end) as [negative ds].
  destruct (Py.int_digits 0 false ds); eauto.
Qed.

(** The bit-range token [se ++ sep ++ sl] splits into [se] and [sl] for
    either separator, when the two parts convert. *)
Lemma split_range_parts se sl sep e l :
  sep = "@"%char ∨ sep = "|"%char →
  Py.int se = Ok e → Py.int sl = Ok l →
  split_range (se ++ String sep sl) = [se; sl].
Proof.
  intros Hsep He Hl. apply int_chars in He, Hl.
  assert (∀ x s, int_char x = false → all_chars int_char s = true →
                 all_chars (λ c, negb (Ascii.eqb c x)) s = true) as Hno.
  { intros x s Hx. apply all_chars_impl. intros c. by apply int_char_not. }
  unfold split_range. rewrite replace_app.
  rewrite (replace_absent "@" "|" se) by by apply Hno.
  assert (Py.replace "@" "|" (String sep sl) = String "|" sl) as ->.
  { simpl. rewrite (replace_absent "@" "|" sl) by by apply Hno.
    destruct Hsep as [-> | ->]; done. }
  rewrite split_sep_app by by apply Hno.
  by rewrite split_sep_absent by by apply Hno.
Qed.

End conversions.

(** ** Facts about the literal evaluator *)

Section literals.

Implicit Types (s ds ip fp : string) (c x : ascii).




(** *** Tokens that start with a digit or a point *)



End literals.

(** ** Sample inputs *)

(** The double-quote character, as a string. *)
Definition dquote : string := String (ascii_of_N 34) EmptyString.

(** A DBC text with two messages, the first with two signals and the second
    with one, separated by an empty line. *)
Definition engine_brake_dbc : list string :=
  [ "BO_ 100 EngineData: 8 PowertrainECU";
    " SG_ RPM : 15|16 (0.25,0) [0|16383.75] " ++ dquote ++ "engine speed" ++ dquote;
    " SG_ Temp : 7|8 (1,-40) [-40|215] " ++ dquote ++ "coolant temp" ++ dquote;
    "";
    "BO_ 200 BrakeData: 4 ChassisECU";
    " SG_ Pressure : 31|16 (0.1,0) [0|6553.5] " ++ dquote ++ "brake pressure" ++ dquote ].

Definition rpm_line : string := " SG_ RPM : 15|16 (0.25,0) [0|16383.75] rpm".

Definition engine_message : message :=
  {| bo_family := "PowertrainECU"; bo_genus := "EngineData";
     bo_species := ∅; bo_frame_bytes := 8 |}.

(** The state after the line [BO_ 100 EngineData: 8 PowertrainECU]. *)
Definition engine_open : state :=
  {| can_db := {[ 100 := engine_message ]}; Flag := true;
     current_BO := Some 100 |}.

(** The signal that [rpm_line] stores, and the state after the [BO_] line
    and [rpm_line]. *)
Definition rpm_signal : signal :=
  {| sg_end_bit := 15; sg_length := 16;
     sg_factor := PyFloat (1 # 4); sg_offset := PyInt 0;
     sg_minimum := PyInt 0; sg_maximum := PyFloat (65535 # 4);
     sg_description := "rpm"; sg_value := PyNone |}.

Definition engine_with_rpm : state :=
  {| can_db := {[ 100 := {| bo_family := "PowertrainECU";
                            bo_genus := "EngineData";
                            bo_species := {[ "RPM" := rpm_signal ]};
                            bo_frame_bytes := 8 |} ]};
     Flag := true;
     current_BO := Some 100 |}.

(** The operations on small inputs. *)

Example split_tokens :
  Py.split "  BO_ 100   EngineData: 8 PowertrainECU "
  = ["BO_"; "100"; "EngineData:"; "8"; "PowertrainECU"].
Proof. reflexivity. Qed.

Example split_sep_pieces : Py.split_sep "|" "a||b|" = ["a"; ""; "b"; ""].
Proof. reflexivity. Qed.

Example int_samples :
  Py.int "-12" = Ok (-12) ∧ Py.int "+7" = Ok 7 ∧ Py.int "007" = Ok 7
  ∧ Py.int "1_000" = Ok 1000 ∧ Py.int "1.5" = Raise ValueError
  ∧ Py.int "" = Raise ValueError ∧ Py.int "1__0" = Raise ValueError.
Proof. repeat split; reflexivity. Qed.

Example literal_eval_samples :
  Py.literal_eval "0" = Ok (PyInt 0)
  ∧ Py.literal_eval "007" = Raise SyntaxError
  ∧ Py.literal_eval "6553.5" = Ok (PyFloat (13107 # 2))
  ∧ Py.literal_eval "-.5" = Ok (PyFloat (-1 # 2))
  ∧ Py.literal_eval "1e5" = Raise NotModelled.
Proof. repeat split; reflexivity. Qed.

(** A [BO_] line with too few tokens, and one whose id is no integer. *)
Example get_can_raises :
  get_can Py.literal_eval ["BO_ 100 EngineData:"] = Raise IndexError
  ∧ get_can Py.literal_eval
      ["BO_ 100 EngineData: 8 PowertrainECU"; "BO_ 0x10 BrakeData: 4 ChassisECU"]
    = Raise ValueError.
Proof. split; reflexivity. Qed.

(** ** The properties of the reader *)

(** C1 (as amended): an [SG_] line met while no message is open raises no
    error.  The line is passed over: the state and the table stay as they
    are and the loop goes on with the next line. *)
Theorem sg_without_open_message_skipped
    (literal_eval : string → result pyval) st line ts :
  Flag st = false →
  Py.split line = "SG_" :: ts →
  step literal_eval st line = Ok st
  ∧ ∀ rest, run literal_eval st (line :: rest) = run literal_eval st rest.
Proof.
  intros HF Hline.
  assert (step literal_eval st line = Ok st) as Hstep.
  { eapply step_skip; [exact Hline | done | by left]. }
  split; [done|]. intros rest. simpl. by rewrite Hstep.
Qed.

Lemma sg_without_open_message_skipped_witness :
  step Py.literal_eval initial rpm_line = Ok initial
  ∧ ∀ rest, run Py.literal_eval initial (rpm_line :: rest)
            = run Py.literal_eval initial rest.
Proof.
  apply (sg_without_open_message_skipped Py.literal_eval initial rpm_line
           ["RPM"; ":"; "15|16"; "(0.25,0)"; "[0|16383.75]"; "rpm"]);
    reflexivity.
Defined.

(** C1, the claim as written fails: an [SG_] line as the very first line,
    and an [SG_] line after an empty line that closed the message, both let
    [get_can] return a table, with no error. *)
Lemma sg_without_open_message_counterexample :
  first_is (Py.split rpm_line) "SG_" = true
  ∧ get_can Py.literal_eval [rpm_line] = Ok ∅
  ∧ get_can Py.literal_eval
      ["BO_ 100 EngineData: 8 PowertrainECU"; ""; rpm_line]
    = Ok {[ 100 := engine_message ]}.
Proof. repeat split; vm_compute; reflexivity. Qed.

(** [processes literal_eval st lines st']: the lines of [lines] are
    processed one after the other from the state [st], none of them raises
    an exception, and [st'] is the state after the last one.  The relation
    is built from single iterations only. *)
Inductive processes (literal_eval : string → result pyval)
    : state → list string → state → Prop :=
  | processes_nil st : processes literal_eval st [] st
  | processes_cons st line st1 rest st' :
      step literal_eval st line = Ok st1 →
      processes literal_eval st1 rest st' →
      processes literal_eval st (line :: rest) st'.

Lemma processes_run (literal_eval : string → result pyval) st lines st' :
  processes literal_eval st lines st' ↔ run literal_eval st lines = Ok st'.
Proof.
  split.
  - induction 1 as [st | st line st1 rest st' Hstep _ IH]; simpl; [done|].
    by rewrite Hstep.
  - revert st; induction lines as [|line rest IH]; intros st; simpl.
    + intros [= <-]. constructor.
    + intros H. apply bind_Ok in H as (st1 & Hstep & Hrest).
      econstructor; eauto.
Qed.

(** A line that raises, after lines that were processed, makes [get_can]
    raise, whatever follows it. *)
Lemma get_can_raises_at
    (literal_eval : string → result pyval) (pre post : list string) line st e :
  processes literal_eval initial pre st →
  step literal_eval st line = Raise e →
  get_can literal_eval (pre ++ line :: post)%list = Raise e.
Proof.
  intros Hpre%processes_run Hline. unfold get_can.
  rewrite run_app, Hpre. simpl. by rewrite Hline.
Qed.

Lemma message_start_too_short st ts :
  (length ts < 4)%nat → message_start st ("BO_" :: ts) = Raise IndexError.
Proof.
  intros Hlen. unfold message_start, index.
  destruct ts as [|t1 [|t2 [|t3 [|t4 rest]]]]; simpl in *;
    first [reflexivity | lia].
Qed.

Lemma message_start_not_integer st t1 t2 t3 t4 rest :
  Py.int t1 = Raise ValueError ∨ Py.int t3 = Raise ValueError →
  message_start st ("BO_" :: t1 :: t2 :: t3 :: t4 :: rest) = Raise ValueError.
Proof.
  intros H. unfold message_start, index. simpl.
  destruct (Py.int t3) as [fb|e3] eqn:H3; simpl.
  - destruct H as [-> | H]; [done | discriminate H].
  - destruct (int_total t3) as [[z Hz] | Hz]; congruence.
Qed.

Lemma signal_entry_too_short
    (literal_eval : string → result pyval) st ts :
  (length ts < 5)%nat →
  signal_entry literal_eval st ("SG_" :: ts) = Raise IndexError.
Proof.
  intros Hlen. unfold signal_entry, index.
  destruct ts as [|t1 [|t2 [|t3 [|t4 [|t5 rest]]]]]; simpl in *;
    first [reflexivity | lia].
Qed.

Lemma signal_entry_factor_raises
    (literal_eval : string → result pyval) st name mux rng fo mm rest
    r0 r1 rs e l f0 fs x :
  split_range rng = r0 :: r1 :: rs →
  Py.int r0 = Ok e →
  Py.int r1 = Ok l →
  factor_offset fo = f0 :: fs →
  literal_eval f0 = Raise x →
  signal_entry literal_eval st ("SG_" :: name :: mux :: rng :: fo :: mm :: rest)
  = Raise x.
Proof.
  intros Hr H0 H1 Hf Hx. unfold signal_entry, index. simpl.
  rewrite Hr. simpl. rewrite H0. simpl. rewrite H1. simpl.
  rewrite Hf. simpl. by rewrite Hx.
Qed.

Lemma signal_entry_range_raises
    (literal_eval : string → result pyval) st name mux rng fo mm rest r0 rs :
  split_range rng = r0 :: rs →
  Py.int r0 = Raise ValueError →
  signal_entry literal_eval st ("SG_" :: name :: mux :: rng :: fo :: mm :: rest)
  = Raise ValueError.
Proof.
  intros Hr H0. unfold signal_entry, index. simpl.
  rewrite Hr. simpl. by rewrite H0.
Qed.

Lemma signal_entry_no_description
    (literal_eval : string → result pyval) st name mux rng fo mm
    r0 r1 rs e l factor offset minimum maximum :
  split_range rng = r0 :: r1 :: rs →
  Py.int r0 = Ok e →
  Py.int r1 = Ok l →
  pair_evaluates literal_eval (factor_offset fo) factor offset →
  pair_evaluates literal_eval (value_range mm) minimum maximum →
  signal_entry literal_eval st ["SG_"; name; mux; rng; fo; mm]
  = Raise IndexError.
Proof.
  intros Hr H0 H1 (f0 & f1 & fs & Hf & Hf0 & Hf1)
    (v0 & v1 & vs & Hv & Hv0 & Hv1).
  unfold signal_entry, index. simpl.
  rewrite Hr. simpl. rewrite H0. simpl. rewrite H1. simpl.
  rewrite Hf. simpl. rewrite Hf0. simpl. rewrite Hf1. simpl.
  rewrite Hv. simpl. rewrite Hv0. simpl. by rewrite Hv1.
Qed.

(** C2: [get_can] is all or nothing.  When every line is processed, the
    table of the last state is returned.  When a line raises an exception,
    the lines before it having been processed, [get_can] raises that
    exception, whatever lines follow, and returns no table.  One of the
    two is the case for every input.  Lines that raise are, among others:
    a [BO_] line with fewer than five tokens, a [BO_] line whose id or
    frame byte count is no integer and, under an open message, an [SG_]
    line with fewer than six tokens, with a bit position that is no
    integer, with a factor the evaluator rejects, or with six tokens all
    of which convert but no description. *)
Theorem get_can_all_or_nothing
    (literal_eval : string → result pyval) (dbc_file : list string) :
  (∀ st, processes literal_eval initial dbc_file st →
         get_can literal_eval dbc_file = Ok (can_db st))
  ∧ (∀ (pre post : list string) line st e,
        dbc_file = (pre ++ line :: post)%list →
        processes literal_eval initial pre st →
        step literal_eval st line = Raise e →
        get_can literal_eval dbc_file = Raise e)
  ∧ ((∃ st, processes literal_eval initial dbc_file st)
     ∨ (∃ (pre post : list string) line st e,
           dbc_file = (pre ++ line :: post)%list
           ∧ processes literal_eval initial pre st
           ∧ step literal_eval st line = Raise e))
  ∧ (∀ (pre post : list string) line st ts,
        dbc_file = (pre ++ line :: post)%list →
        processes literal_eval initial pre st →
        Py.split line = "BO_" :: ts →
        (length ts < 4)%nat →
        get_can literal_eval dbc_file = Raise IndexError)
  ∧ (∀ (pre post : list string) line st t1 t2 t3 t4 rest,
        dbc_file = (pre ++ line :: post)%list →
        processes literal_eval initial pre st →
        Py.split line = "BO_" :: t1 :: t2 :: t3 :: t4 :: rest →
        Py.int t1 = Raise ValueError ∨ Py.int t3 = Raise ValueError →
        get_can literal_eval dbc_file = Raise ValueError)
  ∧ (∀ (pre post : list string) line st ts,
        dbc_file = (pre ++ line :: post)%list →
        processes literal_eval initial pre st →
        Flag st = true →
        Py.split line = "SG_" :: ts →
        (length ts < 5)%nat →
        get_can literal_eval dbc_file = Raise IndexError)
  ∧ (∀ (pre post : list string) line st name mux rng fo mm rest
       r0 r1 rs e l f0 fs x,
        dbc_file = (pre ++ line :: post)%list →
        processes literal_eval initial pre st →
        Flag st = true →
        Py.split line = "SG_" :: name :: mux :: rng :: fo :: mm :: rest →
        split_range rng = r0 :: r1 :: rs →
        Py.int r0 = Ok e →
        Py.int r1 = Ok l →
        factor_offset fo = f0 :: fs →
        literal_eval f0 = Raise x →
        get_can literal_eval dbc_file = Raise x)
  ∧ (∀ (pre post : list string) line st name mux rng fo mm rest r0 rs,
        dbc_file = (pre ++ line :: post)%list →
        processes literal_eval initial pre st →
        Flag st = true →
        Py.split line = "SG_" :: name :: mux :: rng :: fo :: mm :: rest →
        split_range rng = r0 :: rs →
        Py.int r0 = Raise ValueError →
        get_can literal_eval dbc_file = Raise ValueError)
  ∧ (∀ (pre post : list string) line st name mux rng fo mm
       r0 r1 rs e l factor offset minimum maximum,
        dbc_file = (pre ++ line :: post)%list →
        processes literal_eval initial pre st →
        Flag st = true →
        Py.split line = ["SG_"; name; mux; rng; fo; mm] →
        split_range rng = r0 :: r1 :: rs →
        Py.int r0 = Ok e →
        Py.int r1 = Ok l →
        pair_evaluates literal_eval (factor_offset fo) factor offset →
        pair_evaluates literal_eval (value_range mm) minimum maximum →
        get_can literal_eval dbc_file = Raise IndexError).
Proof.
  split.
  { intros st Hall%processes_run. unfold get_can. by rewrite Hall. }
  split.
  { intros pre post line st e -> Hpre Hline.
    by apply (get_can_raises_at literal_eval pre post line st e). }
  split.
  { destruct (run_outcome literal_eval initial dbc_file)
      as [[st H] | (pre & line & post & st & e & Hsplit & Hpre & Hline & _)].
    - left. exists st. by apply processes_run.
    - right. exists pre, post, line, st, e. split; [done|].
      split; [by apply processes_run | done]. }
  split.
  { intros pre post line st ts -> Hpre Hline Hlen.
    apply (get_can_raises_at literal_eval pre post line st); [done|].
    rewrite (step_message_start _ _ _ _ Hline).
    by apply message_start_too_short. }
  split.
  { intros pre post line st t1 t2 t3 t4 rest -> Hpre Hline Hint.
    apply (get_can_raises_at literal_eval pre post line st); [done|].
    rewrite (step_message_start _ _ _ _ Hline).
    by apply message_start_not_integer. }
  split.
  { intros pre post line st ts -> Hpre HF Hline Hlen.
    apply (get_can_raises_at literal_eval pre post line st); [done|].
    rewrite (step_signal_entry _ _ _ _ HF Hline).
    by apply signal_entry_too_short. }
  split.
  { intros pre post line st name mux rng fo mm rest r0 r1 rs e l f0 fs x
      -> Hpre HF Hline Hr H0 H1 Hf Hx.
    apply (get_can_raises_at literal_eval pre post line st); [done|].
    rewrite (step_signal_entry _ _ _ _ HF Hline).
    by apply (signal_entry_factor_raises literal_eval st name mux rng fo mm
                rest r0 r1 rs e l f0 fs x). }
  split.
  { intros pre post line st name mux rng fo mm rest r0 rs
      -> Hpre HF Hline Hr H0.
    apply (get_can_raises_at literal_eval pre post line st); [done|].
    rewrite (step_signal_entry _ _ _ _ HF Hline).
    by apply (signal_entry_range_raises literal_eval st name mux rng fo mm
                rest r0 rs). }
  intros pre post line st name mux rng fo mm r0 r1 rs e l
    factor offset minimum maximum -> Hpre HF Hline Hr H0 H1 Hfo Hmm.
  apply (get_can_raises_at literal_eval pre post line st); [done|].
  rewrite (step_signal_entry _ _ _ _ HF Hline).
  by apply (signal_entry_no_description literal_eval st name mux rng fo mm
              r0 r1 rs e l factor offset minimum maximum).
Qed.

Lemma get_can_all_or_nothing_witness :
  get_can Py.literal_eval
    ["BO_ 100 EngineData: 8 PowertrainECU"; "BO_ 200 BrakeData:"; rpm_line]
  = Raise IndexError
  ∧ get_can Py.literal_eval ["BO_ 100 EngineData: 8 PowertrainECU"]
    = Ok (can_db engine_open).
Proof.
  split.
  - destruct (get_can_all_or_nothing Py.literal_eval
                ["BO_ 100 EngineData: 8 PowertrainECU"; "BO_ 200 BrakeData:";
                 rpm_line]) as (_ & _ & _ & Hshort & _).
    apply (Hshort ["BO_ 100 EngineData: 8 PowertrainECU"] [rpm_line]
             "BO_ 200 BrakeData:" engine_open ["200"; "BrakeData:"]).
    + reflexivity.
    + apply (processes_cons Py.literal_eval initial _ engine_open [] engine_open).
      * reflexivity.
      * apply processes_nil.
    + reflexivity.
    + simpl. lia.
  - destruct (get_can_all_or_nothing Py.literal_eval
                ["BO_ 100 EngineData: 8 PowertrainECU"]) as (Hall & _).
    apply (Hall engine_open).
    apply (processes_cons Py.literal_eval initial _ engine_open [] engine_open).
    + reflexivity.
    + apply processes_nil.
Defined.

(** C7: a line without token clears the open-message state and leaves the
    table as it is; a line with a first token that is neither [BO_] nor,
    while a message is open, [SG_] changes nothing.  The lines without
    token are the lines made of white space only. *)
Theorem irrelevant_lines
    (literal_eval : string → result pyval) st line :
  (Py.split line = [] ↔ blank line = true)
  ∧ (Py.split line = [] →
     step literal_eval st line
     = Ok {| can_db := can_db st; Flag := false; current_BO := None |})
  ∧ (∀ t ts, Py.split line = t :: ts →
             t ≠ "BO_" →
             Flag st = false ∨ t ≠ "SG_" →
             step literal_eval st line = Ok st).
Proof.
  split; [apply split_nil_blank|]. split.
  - apply step_blank.
  - intros t ts. apply step_skip.
Qed.

Lemma irrelevant_lines_witness :
  step Py.literal_eval engine_open "   "
  = Ok {| can_db := can_db engine_open; Flag := false; current_BO := None |}
  ∧ step Py.literal_eval engine_open "VAL_ 100 RPM 0 idle ;" = Ok engine_open.
Proof.
  split.
  - destruct (irrelevant_lines Py.literal_eval engine_open "   ")
      as (_ & Hblank & _).
    apply Hblank. reflexivity.
  - destruct (irrelevant_lines Py.literal_eval engine_open
                "VAL_ 100 RPM 0 idle ;") as (_ & _ & Hother).
    apply (Hother "VAL_" ["100"; "RPM"; "0"; "idle"; ";"]).
    + reflexivity.
    + discriminate.
    + right. discriminate.
Defined.

(** C9: a line whose first token is [BO_] builds the message from its
    tokens: the arbitration id is the integer of token 2, the genus is
    token 3 without its last character, the frame byte count is the
    integer of token 4 and the family is token 5. *)
Theorem message_start_fields
    (literal_eval : string → result pyval) st line t1 t2 t3 t4 rest k fb :
  Py.split line = "BO_" :: t1 :: t2 :: t3 :: t4 :: rest →
  Py.int t1 = Ok k →
  Py.int t3 = Ok fb →
  step literal_eval st line
  = Ok {| can_db := <[k := {| bo_family := t4;
                             bo_genus := Py.drop_last t2;
                             bo_species := ∅;
                             bo_frame_bytes := fb |}]> (can_db st);
          Flag := true;
          current_BO := Some k |}
  ∧ ∀ g c, t2 = g ++ String c "" → Py.drop_last t2 = g.
Proof.
  intros Hline H1 H3. split.
  - rewrite (step_message_start _ _ _ _ Hline). by apply message_start_ok.
  - intros g c ->. apply drop_last_snoc.
Qed.

Lemma message_start_fields_witness :
  step Py.literal_eval initial "BO_ 100 EngineData: 8 PowertrainECU"
  = Ok {| can_db := <[100 := {| bo_family := "PowertrainECU";
                               bo_genus := Py.drop_last "EngineData:";
                               bo_species := ∅;
                               bo_frame_bytes := 8 |}]> ∅;
          Flag := true;
          current_BO := Some 100 |}
  ∧ Py.drop_last "EngineData:" = "EngineData".
Proof.
  destruct (message_start_fields Py.literal_eval initial
              "BO_ 100 EngineData: 8 PowertrainECU"
              "100" "EngineData:" "8" "PowertrainECU" [] 100 8)
    as [Hstep Hgenus]; [reflexivity | reflexivity | reflexivity |].
  split; [exact Hstep|].
  apply (Hgenus "EngineData" ":"%char). reflexivity.
Defined.

(** C10: the invariant of the loop.  It holds at the start, every line that
    is processed keeps it, and so in every state the loop reaches with
    [Flag] set, [current_BO] is a key of [can_db]: the lookup
    [can_db[current_BO]] of the signal branch finds its message. *)
Theorem open_message_found (literal_eval : string → result pyval) :
  open_ok initial
  ∧ (∀ st line st',
        open_ok st → step literal_eval st line = Ok st' → open_ok st')
  ∧ (∀ dbc_file st,
        run literal_eval initial dbc_file = Ok st →
        Flag st = true →
        ∃ k m, current_BO st = Some k ∧ can_db st !! k = Some m
               ∧ open_message st = Ok (k, m)).
Proof.
  split; [apply open_ok_initial|]. split; [apply step_open_ok|].
  intros dbc_file st Hrun HF.
  destruct (run_open_ok literal_eval initial dbc_file st open_ok_initial Hrun HF)
    as (k & m & Hopen).
  exists k, m. unfold open_message in *.
  destruct (current_BO st) as [k'|]; [|done].
  destruct (can_db st !! k') as [m'|] eqn:Hm; [|done].
  injection Hopen as -> ->. rewrite Hm. done.
Qed.

Lemma open_message_found_witness :
  ∃ k m, current_BO engine_open = Some k ∧ can_db engine_open !! k = Some m
         ∧ open_message engine_open = Ok (k, m).
Proof.
  destruct (open_message_found Py.literal_eval) as (_ & _ & Hrun).
  apply (Hrun ["BO_ 100 EngineData: 8 PowertrainECU"] engine_open);
    reflexivity.
Defined.

(** C4: a [BO_] line, after any lines that were processed, stores exactly
    one entry, under its arbitration id, and leaves every other key as it
    was.  Whatever was stored under that id before, signals included, is
    gone: the entry holds the family, genus and frame byte count of this
    line and an empty signal mapping. *)
Theorem message_start_replaces
    (literal_eval : string → result pyval) (pre : list string) st
    line t1 t2 t3 t4 rest k fb :
  run literal_eval initial pre = Ok st →
  Py.split line = "BO_" :: t1 :: t2 :: t3 :: t4 :: rest →
  Py.int t1 = Ok k →
  Py.int t3 = Ok fb →
  ∃ st', run literal_eval initial (pre ++ [line])%list = Ok st'
         ∧ can_db st' !! k = Some {| bo_family := t4;
                                     bo_genus := Py.drop_last t2;
                                     bo_species := ∅;
                                     bo_frame_bytes := fb |}
         ∧ (∀ k', k' ≠ k → can_db st' !! k' = can_db st !! k')
         ∧ dom (can_db st') = {[ k ]} ∪ dom (can_db st)
         ∧ Flag st' = true
         ∧ current_BO st' = Some k.
Proof.
  intros Hpre Hline H1 H3.
  eexists. rewrite run_app, Hpre. simpl.
  rewrite (step_message_start _ _ _ _ Hline).
  rewrite (message_start_ok st t1 t2 t3 t4 rest k fb H1 H3). simpl.
  split; [reflexivity|]. simpl.
  split; [apply lookup_insert_eq|].
  split; [intros k' Hk'; by apply lookup_insert_ne|].
  split; [apply dom_insert_L | done].
Qed.

Lemma message_start_replaces_witness :
  run Py.literal_eval initial
    ["BO_ 100 EngineData: 8 PowertrainECU"; rpm_line] = Ok engine_with_rpm
  ∧ ∃ st',
      run Py.literal_eval initial
        ["BO_ 100 EngineData: 8 PowertrainECU"; rpm_line;
         "BO_ 100 BrakeData: 4 ChassisECU"] = Ok st'
      ∧ can_db st' !! 100 = Some {| bo_family := "ChassisECU";
                                    bo_genus := "BrakeData";
                                    bo_species := ∅;
                                    bo_frame_bytes := 4 |}.
Proof.
  split; [vm_compute; reflexivity|].
  destruct (message_start_replaces Py.literal_eval
              ["BO_ 100 EngineData: 8 PowertrainECU"; rpm_line]
              engine_with_rpm
              "BO_ 100 BrakeData: 4 ChassisECU"
              "100" "BrakeData:" "4" "ChassisECU" [] 100 4)
    as (st' & Hrun & Hentry & _);
    [vm_compute; reflexivity | reflexivity | reflexivity | reflexivity |].
  exists st'. split; [exact Hrun | exact Hentry].
Defined.

(** C5: under an open message, an [SG_] line whose bit-range token is
    [<e>@<l>] or [<e>|<l>], both parts converting to integers, stores a
    signal with [end_bit = e] and [length = l], the other fields
    converting as well.  The tokens [12@4] and [12|4] give the same state,
    with [end_bit = 12] and [length = 4]. *)
Theorem bit_range_separators (literal_eval : string → result pyval) :
  (∀ st k m line name mux se sep sl fo mm desc rest e l
     factor offset minimum maximum,
      Flag st = true →
      current_BO st = Some k →
      can_db st !! k = Some m →
      Py.split line
      = "SG_" :: name :: mux :: (se ++ String sep sl) :: fo :: mm :: desc :: rest →
      sep = "@"%char ∨ sep = "|"%char →
      Py.int se = Ok e →
      Py.int sl = Ok l →
      pair_evaluates literal_eval (factor_offset fo) factor offset →
      pair_evaluates literal_eval (value_range mm) minimum maximum →
      ∃ st' m' sg,
        step literal_eval st line = Ok st'
        ∧ can_db st' !! k = Some m'
        ∧ bo_species m' !! name = Some sg
        ∧ sg_end_bit sg = e
        ∧ sg_length sg = l)
  ∧ split_range "12@4" = ["12"; "4"]
  ∧ split_range "12|4" = ["12"; "4"]
  ∧ Py.int "12" = Ok 12
  ∧ Py.int "4" = Ok 4.
Proof.
  split; [|repeat split; reflexivity].
  intros st k m line name mux se sep sl fo mm desc rest e l
    factor offset minimum maximum HF Hk Hm Hline Hsep He Hl Hfo Hmm.
  rewrite (step_signal_entry _ _ _ _ HF Hline).
  rewrite (signal_entry_ok literal_eval st k m name mux _ fo mm desc rest
             se sl [] e l factor offset minimum maximum Hk Hm
             (split_range_parts se sl sep e l Hsep He Hl) He Hl Hfo Hmm).
  do 3 eexists. split; [reflexivity|]. simpl.
  split; [apply lookup_insert_eq|]. simpl.
  split; [apply lookup_insert_eq|]. done.
Qed.

Lemma bit_range_separators_witness :
  ∃ st' m' sg,
    step Py.literal_eval engine_open " SG_ Gear : 12@4 (1,0) [0|15] gear"
    = Ok st'
    ∧ can_db st' !! 100 = Some m'
    ∧ bo_species m' !! "Gear" = Some sg
    ∧ sg_end_bit sg = 12
    ∧ sg_length sg = 4.
Proof.
  destruct (bit_range_separators Py.literal_eval) as [Hgeneral _].
  apply (Hgeneral engine_open 100 engine_message
           " SG_ Gear : 12@4 (1,0) [0|15] gear"
           "Gear" ":" "12" "@"%char "4" "(1,0)" "[0|15]" "gear" [] 12 4
           (PyInt 1) (PyInt 0) (PyInt 0) (PyInt 15)).
  - reflexivity.
  - reflexivity.
  - reflexivity.
  - reflexivity.
  - left. reflexivity.
  - reflexivity.
  - reflexivity.
  - exists "1", "0", []. repeat split; reflexivity.
  - exists "0", "15", []. repeat split; reflexivity.
Defined.

(** C8: under an open message, an [SG_] line with the factor/offset token
    [(0.1,-40)] stores a signal whose factor is the float 0.1 and whose
    offset is the integer -40, the other fields converting as well. *)
Theorem factor_offset_example
    st k m line name mux rng mm desc rest r0 r1 rs e l minimum maximum :
  Flag st = true →
  current_BO st = Some k →
  can_db st !! k = Some m →
  Py.split line
  = "SG_" :: name :: mux :: rng :: "(0.1,-40)" :: mm :: desc :: rest →
  split_range rng = r0 :: r1 :: rs →
  Py.int r0 = Ok e →
  Py.int r1 = Ok l →
  pair_evaluates Py.literal_eval (value_range mm) minimum maximum →
  ∃ st' m' sg,
    step Py.literal_eval st line = Ok st'
    ∧ can_db st' !! k = Some m'
    ∧ bo_species m' !! name = Some sg
    ∧ sg_factor sg = PyFloat (1 # 10)
    ∧ sg_offset sg = PyInt (-40).
Proof.
  intros HF Hk Hm Hline Hr H0 H1 Hmm.
  rewrite (step_signal_entry _ _ _ _ HF Hline).
  assert (pair_evaluates Py.literal_eval (factor_offset "(0.1,-40)")
            (PyFloat (1 # 10)) (PyInt (-40))) as Hfo.
  { exists "0.1", "-40", []. repeat split; reflexivity. }
  rewrite (signal_entry_ok Py.literal_eval st k m name mux rng _ mm desc rest
             r0 r1 rs e l _ _ minimum maximum Hk Hm Hr H0 H1 Hfo Hmm).
  do 3 eexists. split; [reflexivity|]. simpl.
  split; [apply lookup_insert_eq|]. simpl.
  split; [apply lookup_insert_eq|]. done.
Qed.

Lemma factor_offset_example_witness :
  ∃ st' m' sg,
    step Py.literal_eval engine_open
      " SG_ Temp : 7|8 (0.1,-40) [-40|215] temp" = Ok st'
    ∧ can_db st' !! 100 = Some m'
    ∧ bo_species m' !! "Temp" = Some sg
    ∧ sg_factor sg = PyFloat (1 # 10)
    ∧ sg_offset sg = PyInt (-40).
Proof.
  apply (factor_offset_example engine_open 100 engine_message
           " SG_ Temp : 7|8 (0.1,-40) [-40|215] temp"
           "Temp" ":" "7|8" "[-40|215]" "temp" [] "7" "8" [] 7 8
           (PyInt (-40)) (PyInt 215)).
  - reflexivity.
  - reflexivity.
  - reflexivity.
  - reflexivity.
  - reflexivity.
  - reflexivity.
  - reflexivity.
  - exists "-40", "215", []. repeat split; reflexivity.
Defined.

(** C6: the scenario with the messages 100 and 200.  The table has exactly
    the keys 100 and 200; entry 100 has exactly the signals [RPM] and
    [Temp], with [RPM] of length 16 and factor 0.25 and [Temp] of offset
    -40; entry 200 has exactly the signal [Pressure], of length 16 and
    factor 0.1. *)
Theorem engine_brake_scenario :
  ∃ db m100 m200 rpm temp pressure,
    get_can Py.literal_eval engine_brake_dbc = Ok db
    ∧ dom db = {[ 100; 200 ]}
    ∧ db !! 100 = Some m100
    ∧ dom (bo_species m100) = {[ "RPM"; "Temp" ]}
    ∧ bo_species m100 !! "RPM" = Some rpm
    ∧ sg_length rpm = 16
    ∧ sg_factor rpm = PyFloat (Qred 0.25)
    ∧ bo_species m100 !! "Temp" = Some temp
    ∧ sg_offset temp = PyInt (-40)
    ∧ db !! 200 = Some m200
    ∧ dom (bo_species m200) = {[ "Pressure" ]}
    ∧ bo_species m200 !! "Pressure" = Some pressure
    ∧ sg_length pressure = 16
    ∧ sg_factor pressure = PyFloat (Qred 0.1).
Proof.
  set (rpm := {| sg_end_bit := 15; sg_length := 16;
                 sg_factor := PyFloat (1 # 4); sg_offset := PyInt 0;
                 sg_minimum := PyInt 0; sg_maximum := PyFloat (65535 # 4);
                 sg_description := dquote ++ "engine"; sg_value := PyNone |}).
  set (temp := {| sg_end_bit := 7; sg_length := 8;
                  sg_factor := PyInt 1; sg_offset := PyInt (-40);
                  sg_minimum := PyInt (-40); sg_maximum := PyInt 215;
                  sg_description := dquote ++ "coolant"; sg_value := PyNone |}).
  set (pressure := {| sg_end_bit := 31; sg_length := 16;
                      sg_factor := PyFloat (1 # 10); sg_offset := PyInt 0;
                      sg_minimum := PyInt 0; sg_maximum := PyFloat (13107 # 2);
                      sg_description := dquote ++ "brake"; sg_value := PyNone |}).
  set (m100 := {| bo_family := "PowertrainECU"; bo_genus := "EngineData";
                  bo_species := <["Temp" := temp]> {[ "RPM" := rpm ]};
                  bo_frame_bytes := 8 |}).
  set (m200 := {| bo_family := "ChassisECU"; bo_genus := "BrakeData";
                  bo_species := {[ "Pressure" := pressure ]};
                  bo_frame_bytes := 4 |}).
  exists (<[200 := m200]> {[ 100 := m100 ]}), m100, m200, rpm, temp, pressure.
  repeat split; vm_compute; reflexivity.
Qed.


(** * Further properties of the loop *)

(** ** Auxiliary notions *)

(** The arbitration id a line stores an entry under, when it is a [BO_]
    line with an integer second token. *)
Definition bo_key (line : string) : option Z :=
  let line_array := Py.split line in
  if first_is line_array "BO_" then
    match line_array !! 1%nat with
    | Some t1 =>
        match Py.int t1 with
        | Ok k => Some k
        | Raise _ => None
        end
    | None => None
    end
  else None.

(** The right-hand dictionary of the signal branch, and the assignment to
    its target: the two halves of [signal_entry]. *)
Definition signal_fields (literal_eval : string → result pyval)
    (line_array : list string) : result signal :=
  t3 ← index line_array 3;
  t4 ← index line_array 4;
  t5 ← index line_array 5;
  r0 ← index (split_range t3) 0;
  end_bit ← Py.int r0;
  r1 ← index (split_range t3) 1;
  len ← Py.int r1;
  f0 ← index (factor_offset t4) 0;
  factor ← literal_eval f0;
  f1 ← index (factor_offset t4) 1;
  offset ← literal_eval f1;
  v0 ← index (value_range t5) 0;
  minimum ← literal_eval v0;
  v1 ← index (value_range t5) 1;
  maximum ← literal_eval v1;
  description ← index line_array 6;
  Ok {| sg_end_bit := end_bit; sg_length := len;
        sg_factor := factor; sg_offset := offset;
        sg_minimum := minimum; sg_maximum := maximum;
        sg_description := description; sg_value := PyNone |}.

Definition with_signal (m : message) (name : string) (sg : signal) : message :=
  {| bo_family := bo_family m; bo_genus := bo_genus m;
     bo_species := <[name := sg]> (bo_species m);
     bo_frame_bytes := bo_frame_bytes m |}.

Definition store_signal (st : state) (line_array : list string) (sg : signal)
    : result state :=
  km ← open_message st;
  name ← index line_array 1;
  Ok {| can_db := <[km.1 := with_signal km.2 name sg]> (can_db st);
        Flag := Flag st; current_BO := current_BO st |}.

(** A state with the entries of [db] added below those of its table: the
    keys of the state's own table keep their entries. *)
Definition with_db (db : gmap Z message) (st : state) : state :=
  {| can_db := can_db st ∪ db; Flag := Flag st; current_BO := current_BO st |}.

Definition on_result {A B : Type} (f : A → B) (r : result A) : result B :=
  match r with
  | Ok a => Ok (f a)
  | Raise e => Raise e
  end.

(** Every signal of every message has its ['value'] slot empty. *)
Definition values_unset (db : gmap Z message) : Prop :=
  ∀ k m name sg,
    db !! k = Some m → bo_species m !! name = Some sg → sg_value sg = PyNone.

(** ** The two halves of the signal branch *)

Lemma signal_entry_halves (literal_eval : string → result pyval) st line_array :
  signal_entry literal_eval st line_array
  = sg ← signal_fields literal_eval line_array; store_signal st line_array sg.
Proof.
  unfold signal_entry, signal_fields, store_signal.
  repeat (match goal with
          | |- mbind _ ?m = _ => destruct m; simpl; [|reflexivity]
          end).
  reflexivity.
Qed.

Lemma index_Ok {A : Type} (l : list A) i x : index l i = Ok x ↔ l !! i = Some x.
Proof. unfold index. destruct (l !! i); split; congruence. Qed.

Lemma index_Raise {A : Type} (l : list A) i e :
  index l i = Raise e → e = IndexError ∧ l !! i = None.
Proof. unfold index. destruct (l !! i); [done|]. by intros [= <-]. Qed.

Lemma int_Raise s e : Py.int s = Raise e → e = ValueError.
Proof. destruct (int_total s) as [[z Hz] | Hz]; congruence. Qed.

Lemma first_is_cons line_array word :
  first_is line_array word = true → ∃ ts, line_array = word :: ts.
Proof.
  destruct line_array as [|t ts]; simpl; [done|].
  intros ->%String.eqb_eq. eauto.
Qed.

Lemma store_signal_inv st line_array sg st' :
  store_signal st line_array sg = Ok st' →
  ∃ k m name,
    current_BO st = Some k ∧ can_db st !! k = Some m
    ∧ line_array !! 1%nat = Some name
    ∧ st' = {| can_db := <[k := with_signal m name sg]> (can_db st);
               Flag := Flag st; current_BO := current_BO st |}.
Proof.
  unfold store_signal. intros H.
  apply bind_Ok in H as ([k m] & Hopen & H).
  apply bind_Ok in H as (name & Hname%index_Ok & H).
  injection H as <-. exists k, m, name.
  unfold open_message in Hopen.
  destruct (current_BO st) as [k'|]; [|done].
  destruct (can_db st !! k') as [m'|] eqn:Hm; [|done].
  injection Hopen as -> ->. done.
Qed.

Lemma signal_fields_inv (literal_eval : string → result pyval) line_array sg :
  signal_fields literal_eval line_array = Ok sg →
  sg_value sg = PyNone ∧ line_array !! 6%nat = Some (sg_description sg).
Proof.
  unfold signal_fields. intros H.
  do 15 (apply bind_Ok in H as (? & _ & H)).
  apply bind_Ok in H as (desc & Hdesc%index_Ok & H).
  injection H as <-. done.
Qed.

Lemma signal_entry_inv (literal_eval : string → result pyval) st line_array st' :
  signal_entry literal_eval st line_array = Ok st' →
  ∃ k m name sg,
    current_BO st = Some k ∧ can_db st !! k = Some m
    ∧ line_array !! 1%nat = Some name
    ∧ line_array !! 6%nat = Some (sg_description sg)
    ∧ sg_value sg = PyNone
    ∧ st' = {| can_db := <[k := with_signal m name sg]> (can_db st);
               Flag := Flag st; current_BO := current_BO st |}.
Proof.
  rewrite signal_entry_halves. intros H.
  apply bind_Ok in H as (sg & [Hv Hd]%signal_fields_inv & H).
  apply store_signal_inv in H as (k & m & name & Hk & Hm & Hname & ->).
  exists k, m, name, sg. done.
Qed.

Lemma message_start_inv st line_array st' :
  message_start st line_array = Ok st' →
  ∃ t1 t2 t3 t4 k fb,
    line_array !! 1%nat = Some t1 ∧ line_array !! 2%nat = Some t2
    ∧ line_array !! 3%nat = Some t3 ∧ line_array !! 4%nat = Some t4
    ∧ Py.int t1 = Ok k ∧ Py.int t3 = Ok fb
    ∧ st' = {| can_db := <[k := {| bo_family := t4;
                                   bo_genus := Py.drop_last t2;
                                   bo_species := ∅;
                                   bo_frame_bytes := fb |}]> (can_db st);
               Flag := true; current_BO := Some k |}.
Proof.
  unfold message_start. intros H.
  apply bind_Ok in H as (t4 & H4%index_Ok & H).
  apply bind_Ok in H as (t2 & H2%index_Ok & H).
  apply bind_Ok in H as (t3 & H3%index_Ok & H).
  apply bind_Ok in H as (fb & Hfb & H).
  apply bind_Ok in H as (t1 & H1%index_Ok & H).
  apply bind_Ok in H as (k & Hk & H).
  injection H as <-. exists t1, t2, t3, t4, k, fb. done.
Qed.

(** The four ways an iteration can go. *)
Lemma step_cases (literal_eval : string → result pyval) st line :
  (Py.split line = []
   ∧ step literal_eval st line
     = Ok {| can_db := can_db st; Flag := false; current_BO := None |})
  ∨ (∃ ts, Py.split line = "SG_" :: ts ∧ Flag st = true
           ∧ step literal_eval st line
             = signal_entry literal_eval st ("SG_" :: ts))
  ∨ (∃ ts, Py.split line = "BO_" :: ts
           ∧ step literal_eval st line = message_start st ("BO_" :: ts))
  ∨ (∃ t ts, Py.split line = t :: ts ∧ t ≠ "BO_"
             ∧ (Flag st = false ∨ t ≠ "SG_")
             ∧ step literal_eval st line = Ok st).
Proof.
  destruct (Py.split line) as [|t ts] eqn:Hline.
  { left. split; [done|]. by apply step_blank. }
  right.
  destruct (String.eqb_spec t "BO_") as [-> | Hbo].
  { right. left. exists ts. split; [done|]. by apply step_message_start. }
  destruct (String.eqb_spec t "SG_") as [-> | Hsg].
  - destruct (Flag st) eqn:HF.
    + left. exists ts. split; [done|]. split; [done|].
      by apply step_signal_entry.
    + right. right. exists "SG_", ts. split; [done|]. split; [done|].
      split; [by left|]. eapply step_skip; eauto.
  - right. right. exists t, ts. split; [done|]. split; [done|].
    split; [by right|]. eapply step_skip; eauto.
Qed.

Lemma bo_key_blank line : Py.split line = [] → bo_key line = None.
Proof. unfold bo_key. by intros ->. Qed.

Lemma bo_key_other line t ts :
  Py.split line = t :: ts → t ≠ "BO_" → bo_key line = None.
Proof.
  unfold bo_key. intros -> Hne. simpl.
  by apply String.eqb_neq in Hne as ->.
Qed.

(** What one iteration does to the keys of the table. *)
Lemma step_dom (literal_eval : string → result pyval) st line st' :
  step literal_eval st line = Ok st' →
  dom (can_db st')
  = dom (can_db st) ∪ (if bo_key line is Some k then {[ k ]} else ∅).
Proof.
  intros Hstep.
  destruct (step_cases literal_eval st line)
    as [[Hline H] | [(ts & Hline & HF & H) | [(ts & Hline & H)
        | (t & ts & Hline & Hbo & Hsg & H)]]];
    rewrite H in Hstep.
  - injection Hstep as <-. rewrite (bo_key_blank _ Hline). simpl.
    by rewrite union_empty_r_L.
  - apply signal_entry_inv in Hstep
      as (k & m & name & sg & Hk & Hm & _ & _ & _ & ->).
    rewrite (bo_key_other _ _ _ Hline) by done. simpl.
    rewrite dom_insert_L, union_empty_r_L.
    apply subseteq_union_1_L, singleton_subseteq_l, elem_of_dom. eauto.
  - apply message_start_inv in Hstep
      as (t1 & t2 & t3 & t4 & k & fb & H1 & _ & _ & _ & Hk & _ & ->).
    unfold bo_key. rewrite Hline. simpl in *. rewrite H1, Hk. simpl.
    rewrite dom_insert_L. apply union_comm_L.
  - injection Hstep as <-. rewrite (bo_key_other _ _ _ Hline) by done.
    by rewrite union_empty_r_L.
Qed.

Lemma run_dom (literal_eval : string → result pyval) st dbc_file st' :
  run literal_eval st dbc_file = Ok st' →
  dom (can_db st') = dom (can_db st) ∪ list_to_set (omap bo_key dbc_file).
Proof.
  revert st; induction dbc_file as [|line rest IH]; intros st; simpl.
  - intros [= <-]. by rewrite union_empty_r_L.
  - intros H. apply bind_Ok in H as (st1 & Hstep & Hrest).
    rewrite (IH _ Hrest), (step_dom _ _ _ _ Hstep).
    destruct (bo_key line) as [k|]; simpl.
    + by rewrite union_assoc_L.
    + by rewrite union_empty_r_L.
Qed.

Lemma run_without_message_start (literal_eval : string → result pyval) st dbc_file :
  Flag st = false →
  Forall (λ line, first_is (Py.split line) "BO_" = false) dbc_file →
  ∃ st', run literal_eval st dbc_file = Ok st'
         ∧ can_db st' = can_db st ∧ Flag st' = false.
Proof.
  intros HF Hall. revert st HF.
  induction Hall as [|line rest Hline _ IH]; intros st HF; simpl.
  - by exists st.
  - destruct (step_cases literal_eval st line)
      as [[_ H] | [(ts & _ & HF' & _) | [(ts & Hts & _)
          | (t & ts & _ & _ & _ & H)]]].
    + rewrite H. simpl. apply (IH {| can_db := can_db st; Flag := false;
                                     current_BO := None |}). done.
    + congruence.
    + rewrite Hts in Hline. discriminate Hline.
    + rewrite H. simpl. by apply IH.
Qed.

Lemma step_values_unset (literal_eval : string → result pyval) st line st' :
  values_unset (can_db st) →
  step literal_eval st line = Ok st' →
  values_unset (can_db st').
Proof.
  intros Hst Hstep.
  destruct (step_cases literal_eval st line)
    as [[_ H] | [(ts & _ & _ & H) | [(ts & _ & H)
        | (t & ts & _ & _ & _ & H)]]];
    rewrite H in Hstep.
  - by injection Hstep as <-.
  - apply signal_entry_inv in Hstep
      as (k & m & name & sg & _ & Hm & _ & _ & Hv & ->).
    intros k' m' name' sg'. simpl.
    destruct (decide (k = k')) as [<- | Hk].
    + rewrite lookup_insert_eq. intros [= <-]. simpl.
      destruct (decide (name = name')) as [<- | Hname].
      * rewrite lookup_insert_eq. by intros [= <-].
      * rewrite lookup_insert_ne by done. by apply (Hst k m name' sg').
    + rewrite lookup_insert_ne by done. apply Hst.
  - apply message_start_inv in Hstep
      as (t1 & t2 & t3 & t4 & k & fb & _ & _ & _ & _ & _ & _ & ->).
    intros k' m' name' sg'. simpl.
    destruct (decide (k = k')) as [<- | Hk].
    + rewrite lookup_insert_eq. intros [= <-]. simpl.
      by rewrite lookup_empty.
    + rewrite lookup_insert_ne by done. apply Hst.
  - by injection Hstep as <-.
Qed.

Lemma run_values_unset (literal_eval : string → result pyval) st dbc_file st' :
  values_unset (can_db st) →
  run literal_eval st dbc_file = Ok st' →
  values_unset (can_db st').
Proof.
  revert st; induction dbc_file as [|line rest IH]; intros st Hst; simpl.
  - by intros [= <-].
  - intros H. apply bind_Ok in H as (st1 & Hstep & Hrest).
    eapply IH; [|exact Hrest]. eapply step_values_unset; eauto.
Qed.

(** The coupling of [Flag] and [current_BO]. *)
Definition coupled (st : state) : Prop :=
  match current_BO st with
  | Some k => Flag st = true ∧ is_Some (can_db st !! k)
  | None => Flag st = false
  end.

Lemma step_coupled (literal_eval : string → result pyval) st line st' :
  coupled st → step literal_eval st line = Ok st' → coupled st'.
Proof.
  intros Hst Hstep.
  destruct (step_cases literal_eval st line)
    as [[_ H] | [(ts & _ & HF & H) | [(ts & _ & H)
        | (t & ts & _ & _ & _ & H)]]];
    rewrite H in Hstep.
  - by injection Hstep as <-.
  - apply signal_entry_inv in Hstep
      as (k & m & name & sg & Hk & Hm & _ & _ & _ & ->).
    unfold coupled. simpl. rewrite Hk. split; [done|].
    rewrite lookup_insert_eq. eauto.
  - apply message_start_inv in Hstep
      as (t1 & t2 & t3 & t4 & k & fb & _ & _ & _ & _ & _ & _ & ->).
    unfold coupled. simpl. split; [done|].
    rewrite lookup_insert_eq. eauto.
  - by injection Hstep as <-.
Qed.

Lemma run_coupled (literal_eval : string → result pyval) st dbc_file st' :
  coupled st → run literal_eval st dbc_file = Ok st' → coupled st'.
Proof.
  revert st; induction dbc_file as [|line rest IH]; intros st Hst; simpl.
  - by intros [= <-].
  - intros H. apply bind_Ok in H as (st1 & Hstep & Hrest).
    eapply IH; [|exact Hrest]. eapply step_coupled; eauto.
Qed.

(** ** Properties of the table and of the state *)

(** X1: the keys of the table [get_can] returns are exactly the arbitration
    ids of the [BO_] lines of the input. *)
Theorem table_keys
    (literal_eval : string → result pyval) (dbc_file : list string) db :
  get_can literal_eval dbc_file = Ok db →
  dom db = list_to_set (omap bo_key dbc_file).
Proof.
  unfold get_can. intros H.
  apply bind_Ok in H as (st & Hrun & [= <-]).
  rewrite (run_dom _ _ _ _ Hrun). simpl.
  by rewrite dom_empty_L, union_empty_l_L.
Qed.

Lemma table_keys_witness :
  dom (can_db engine_with_rpm)
  = list_to_set
      (omap bo_key ["BO_ 100 EngineData: 8 PowertrainECU"; rpm_line]).
Proof.
  apply (table_keys Py.literal_eval). vm_compute. reflexivity.
Defined.

(** X2: an input without any [BO_] line gives the empty table, whatever
    its lines hold; no exception is raised. *)
Theorem no_message_start_empty
    (literal_eval : string → result pyval) (dbc_file : list string) :
  Forall (λ line, first_is (Py.split line) "BO_" = false) dbc_file →
  get_can literal_eval dbc_file = Ok ∅.
Proof.
  intros Hall. unfold get_can.
  destruct (run_without_message_start literal_eval initial dbc_file
              eq_refl Hall) as (st' & -> & Hdb & _).
  simpl. by rewrite Hdb.
Qed.

Lemma no_message_start_empty_witness :
  get_can Py.literal_eval
    ["VERSION x"; rpm_line; ""; " SG_ broken"; "BU_: PowertrainECU"] = Ok ∅.
Proof.
  apply no_message_start_empty.
  repeat (constructor; [reflexivity|]). constructor.
Defined.

(** X3: in the table [get_can] returns, the ['value'] slot of every signal
    of every message is [None]. *)
Theorem signal_values_unset
    (literal_eval : string → result pyval) (dbc_file : list string) db :
  get_can literal_eval dbc_file = Ok db → values_unset db.
Proof.
  unfold get_can. intros H.
  apply bind_Ok in H as (st & Hrun & [= <-]).
  eapply run_values_unset; [|exact Hrun].
  intros k m name sg. simpl. by rewrite lookup_empty.
Qed.

Lemma signal_values_unset_witness : values_unset (can_db engine_with_rpm).
Proof.
  apply (signal_values_unset Py.literal_eval
           ["BO_ 100 EngineData: 8 PowertrainECU"; rpm_line]).
  vm_compute. reflexivity.
Defined.

(** X4: [Flag] and [current_BO] stay coupled.  In every state the loop
    reaches, either [current_BO] holds an id, [Flag] is set and that id is
    a key of the table, or [current_BO] holds none and [Flag] is not set. *)
Theorem flag_follows_current
    (literal_eval : string → result pyval) (dbc_file : list string) st :
  run literal_eval initial dbc_file = Ok st →
  match current_BO st with
  | Some k => Flag st = true ∧ is_Some (can_db st !! k)
  | None => Flag st = false
  end.
Proof. apply (run_coupled literal_eval initial). reflexivity. Qed.

Lemma flag_follows_current_witness :
  Flag engine_with_rpm = true ∧ is_Some (can_db engine_with_rpm !! 100).
Proof.
  apply (flag_follows_current Py.literal_eval
           ["BO_ 100 EngineData: 8 PowertrainECU"; rpm_line] engine_with_rpm).
  vm_compute. reflexivity.
Defined.

(** ** What an accepted signal line changes, and what the branches raise *)

(** X5: an [SG_] line that is accepted under an open message changes one
    thing only: in the message [current_BO] names, the signal with the
    line's name is set, a signal stored under that name before being
    replaced.  The other signals of the message, its family, genus and
    frame byte count, the other messages, the keys of the table, [Flag]
    and [current_BO] stay as they are. *)
Theorem signal_entry_frame
    (literal_eval : string → result pyval) st line ts st' :
  Flag st = true →
  Py.split line = "SG_" :: ts →
  step literal_eval st line = Ok st' →
  Flag st' = Flag st
  ∧ current_BO st' = current_BO st
  ∧ dom (can_db st') = dom (can_db st)
  ∧ ∃ k m m' name sg,
      current_BO st = Some k
      ∧ ts !! 0%nat = Some name
      ∧ can_db st !! k = Some m
      ∧ can_db st' !! k = Some m'
      ∧ bo_family m' = bo_family m
      ∧ bo_genus m' = bo_genus m
      ∧ bo_frame_bytes m' = bo_frame_bytes m
      ∧ bo_species m' !! name = Some sg
      ∧ dom (bo_species m') = {[ name ]} ∪ dom (bo_species m)
      ∧ (∀ n, n ≠ name → bo_species m' !! n = bo_species m !! n)
      ∧ (∀ k', k' ≠ k → can_db st' !! k' = can_db st !! k').
Proof.
  intros HF Hline Hstep.
  rewrite (step_signal_entry _ _ _ _ HF Hline) in Hstep.
  apply signal_entry_inv in Hstep
    as (k & m & name & sg & Hk & Hm & Hname & _ & _ & ->).
  simpl. split; [done|]. split; [done|]. split.
  { rewrite dom_insert_L.
    apply subseteq_union_1_L, singleton_subseteq_l, elem_of_dom. eauto. }
  exists k, m, (with_signal m name sg), name, sg.
  split; [done|]. split; [done|]. split; [done|].
  split; [apply lookup_insert_eq|]. simpl.
  do 3 (split; [done|]).
  split; [apply lookup_insert_eq|].
  split; [apply dom_insert_L|].
  split; [intros n Hn; by apply lookup_insert_ne|].
  intros k' Hk'. by apply lookup_insert_ne.
Qed.

Lemma signal_entry_frame_witness :
  ∃ st' m' sg,
    step Py.literal_eval engine_with_rpm
      " SG_ RPM : 23|8 (1,0) [0|255] again" = Ok st'
    ∧ dom (can_db st') = dom (can_db engine_with_rpm)
    ∧ can_db st' !! 100 = Some m'
    ∧ bo_species m' !! "RPM" = Some sg
    ∧ dom (bo_species m') = {[ "RPM" ]}.
Proof.
  eexists.
  assert (step Py.literal_eval engine_with_rpm
            " SG_ RPM : 23|8 (1,0) [0|255] again" = Ok _) as Hstep
    by (vm_compute; reflexivity).
  destruct (signal_entry_frame Py.literal_eval engine_with_rpm
              " SG_ RPM : 23|8 (1,0) [0|255] again"
              ["RPM"; ":"; "23|8"; "(1,0)"; "[0|255]"; "again"] _
              eq_refl eq_refl Hstep)
    as (_ & _ & Hdom & k & m & m' & name & sg & Hk & Hname & Hm & Hm'
        & _ & _ & _ & Hsg & Hsp & _).
  injection Hk as <-. injection Hname as <-.
  exists m', sg. split; [exact Hstep|]. split; [exact Hdom|].
  split; [exact Hm'|]. split; [exact Hsg|].
  rewrite Hsp. injection Hm as <-. vm_compute. reflexivity.
Defined.

(** X6: what a [BO_] line raises.  It raises [IndexError] exactly when it
    has fewer than five tokens; with five tokens or more it raises
    [ValueError] exactly when its second or its fourth token is no integer;
    it raises nothing else, whatever the state. *)
Theorem message_start_errors
    (literal_eval : string → result pyval) st line ts :
  Py.split line = "BO_" :: ts →
  (length ts < 4 ↔ step literal_eval st line = Raise IndexError)%nat
  ∧ (∀ t1 t2 t3 t4 rest,
        ts = t1 :: t2 :: t3 :: t4 :: rest →
        (Py.int t1 = Raise ValueError ∨ Py.int t3 = Raise ValueError)
        ↔ step literal_eval st line = Raise ValueError)
  ∧ (∀ e, step literal_eval st line = Raise e →
          e = IndexError ∨ e = ValueError).
Proof.
  intros Hline. rewrite (step_message_start _ _ _ _ Hline).
  unfold message_start, index.
  destruct ts as [|t1 [|t2 [|t3 [|t4 rest]]]]; simpl;
    try (split; [split; [done | intros _; lia]|];
         split; [done | intros e [= <-]; by left]).
  split; [split; [lia|]|].
  { destruct (Py.int t3) as [fb|e3] eqn:H3; simpl.
    - destruct (Py.int t1) as [k|e1] eqn:H1; simpl; [done|].
      intros [= ->]. by apply int_Raise in H1.
    - intros [= ->]. by apply int_Raise in H3. }
  split.
  - intros ? ? ? ? ? [= <- <- <- <- <-].
    destruct (Py.int t3) as [fb|e3] eqn:H3; simpl.
    + destruct (Py.int t1) as [k|e1] eqn:H1; simpl.
      * split; [by intros [?|?] | done].
      * rewrite (int_Raise _ _ H1). split; [done | by left].
    + rewrite (int_Raise _ _ H3). split; [done | by right].
  - intros e.
    destruct (Py.int t3) as [fb|e3] eqn:H3; simpl.
    + destruct (Py.int t1) as [k|e1] eqn:H1; simpl; [done|].
      intros [= <-]. right. by apply (int_Raise t1).
    + intros [= <-]. right. by apply (int_Raise t3).
Qed.

Lemma message_start_errors_witness :
  step Py.literal_eval engine_open "BO_ 200 BrakeData: 4" = Raise IndexError
  ∧ step Py.literal_eval engine_open "BO_ 0x200 BrakeData: 4 ChassisECU"
    = Raise ValueError.
Proof.
  split.
  - destruct (message_start_errors Py.literal_eval engine_open
                "BO_ 200 BrakeData: 4" ["200"; "BrakeData:"; "4"] eq_refl)
      as ([Hix _] & _).
    apply Hix. simpl. lia.
  - destruct (message_start_errors Py.literal_eval engine_open
                "BO_ 0x200 BrakeData: 4 ChassisECU"
                ["0x200"; "BrakeData:"; "4"; "ChassisECU"] eq_refl)
      as (_ & Hval & _).
    apply (Hval "0x200" "BrakeData:" "4" "ChassisECU" [] eq_refl).
    left. reflexivity.
Defined.

(** [s] holds no occurrence of [c]. *)
Definition lacks (c : ascii) (s : string) : bool :=
  all_chars (λ x, negb (Ascii.eqb x c)) s.

(** A piece of a field token: it holds none of the characters the signal
    branch replaces or splits at. *)
Definition plain_piece (s : string) : bool :=
  lacks "(" s && lacks ")" s && lacks "[" s && lacks "]" s
  && lacks "," s && lacks "|" s && lacks "@" s.

Lemma append_empty_r (s : string) : s ++ "" = s.
Proof.
  induction s as [|c s IH]; [done|]. by rewrite append_cons, IH.
Qed.

Lemma int_lacks s z c : int_char c = false → Py.int s = Ok z → lacks c s = true.
Proof.
  intros Hc Hs%int_chars. unfold lacks.
  eapply all_chars_impl; [|exact Hs]. intros x. by apply int_char_not.
Qed.

Lemma split_range_no_separator rng :
  lacks "@" rng = true → lacks "|" rng = true → split_range rng = [rng].
Proof.
  intros Hat Hbar. unfold split_range.
  rewrite replace_absent by done. by apply split_sep_absent.
Qed.

Lemma split_range_more se sl tail sep1 sep2 e l :
  sep1 = "@"%char ∨ sep1 = "|"%char →
  sep2 = "@"%char ∨ sep2 = "|"%char →
  Py.int se = Ok e → Py.int sl = Ok l →
  split_range (se ++ String sep1 (sl ++ String sep2 tail))
  = se :: sl :: split_range tail.
Proof.
  intros H1 H2 He Hl. unfold split_range.
  pose proof (int_lacks se e "@" eq_refl He) as Hse_at.
  pose proof (int_lacks se e "|" eq_refl He) as Hse_bar.
  pose proof (int_lacks sl l "@" eq_refl Hl) as Hsl_at.
  pose proof (int_lacks sl l "|" eq_refl Hl) as Hsl_bar.
  assert (∀ sep x, sep = "@"%char ∨ sep = "|"%char →
            Py.replace "@" "|" (String sep x)
            = String "|" (Py.replace "@" "|" x)) as Hsep.
  { intros sep x [-> | ->]; reflexivity. }
  rewrite replace_app, (replace_absent "@" "|" se), (Hsep sep1) by done.
  rewrite replace_app, (replace_absent "@" "|" sl), (Hsep sep2) by done.
  rewrite split_sep_app by done. by rewrite split_sep_app by done.
Qed.

Lemma plain_piece_lacks s :
  plain_piece s = true →
  lacks "(" s = true ∧ lacks ")" s = true ∧ lacks "[" s = true
  ∧ lacks "]" s = true ∧ lacks "," s = true ∧ lacks "|" s = true
  ∧ lacks "@" s = true.
Proof.
  unfold plain_piece. rewrite !andb_true_iff. tauto.
Qed.

Lemma lacks_app c a b : lacks c (a ++ b) = lacks c a && lacks c b.
Proof. apply all_chars_app. Qed.

Lemma factor_offset_pieces fa fb :
  plain_piece fa = true → plain_piece fb = true →
  factor_offset ("(" ++ fa ++ "," ++ fb ++ ")") = [fa; fb].
Proof.
  intros (Ha1 & Ha2 & _ & _ & Ha3 & _)%plain_piece_lacks
         (Hb1 & Hb2 & _ & _ & Hb3 & _)%plain_piece_lacks.
  unfold factor_offset.
  change ("(" ++ fa ++ "," ++ fb ++ ")")
    with (String "(" (fa ++ String "," (fb ++ String ")" ""))).
  assert (Py.replace "(" "" (String "(" (fa ++ String "," (fb ++ String ")" "")))
          = fa ++ String "," (fb ++ String ")" "")) as ->.
  { change (Py.replace "(" "" (String "(" ?x)) with (Py.replace "(" "" x).
    apply replace_absent. unfold lacks in *.
    rewrite all_chars_app. simpl. rewrite all_chars_app. simpl.
    by rewrite Ha1, Hb1. }
  rewrite replace_app, (replace_absent ")" "" fa) by done.
  change (Py.replace ")" "" (String "," (fb ++ String ")" "")))
    with (String "," (Py.replace ")" "" (fb ++ String ")" ""))).
  rewrite replace_app, (replace_absent ")" "" fb) by done.
  change (Py.replace ")" "" (String ")" "")) with "".
  rewrite append_empty_r, split_sep_app by done.
  by rewrite split_sep_absent.
Qed.

Lemma value_range_pieces va vb :
  plain_piece va = true → plain_piece vb = true →
  value_range ("[" ++ va ++ "|" ++ vb ++ "]") = [va; vb].
Proof.
  intros (_ & _ & Ha1 & Ha2 & _ & Ha3 & _)%plain_piece_lacks
         (_ & _ & Hb1 & Hb2 & _ & Hb3 & _)%plain_piece_lacks.
  unfold value_range.
  change ("[" ++ va ++ "|" ++ vb ++ "]")
    with (String "[" (va ++ String "|" (vb ++ String "]" ""))).
  assert (Py.replace "[" "" (String "[" (va ++ String "|" (vb ++ String "]" "")))
          = va ++ String "|" (vb ++ String "]" "")) as ->.
  { change (Py.replace "[" "" (String "[" ?x)) with (Py.replace "[" "" x).
    apply replace_absent. unfold lacks in *.
    rewrite all_chars_app. simpl. rewrite all_chars_app. simpl.
    by rewrite Ha1, Hb1. }
  rewrite replace_app, (replace_absent "]" "" va) by done.
  change (Py.replace "]" "" (String "|" (vb ++ String "]" "")))
    with (String "|" (Py.replace "]" "" (vb ++ String "]" ""))).
  rewrite replace_app, (replace_absent "]" "" vb) by done.
  change (Py.replace "]" "" (String "]" "")) with "".
  rewrite append_empty_r, split_sep_app by done.
  by rewrite split_sep_absent.
Qed.

(** X7: an [SG_] line met under an open message is never accepted with
    fewer than seven tokens: with fewer than six it raises [IndexError],
    with six it raises some exception. *)
Theorem signal_entry_short
    (literal_eval : string → result pyval) st line ts :
  Flag st = true →
  Py.split line = "SG_" :: ts →
  ((length ts < 5)%nat → step literal_eval st line = Raise IndexError)
  ∧ ((length ts < 6)%nat → ∃ e, step literal_eval st line = Raise e).
Proof.
  intros HF Hline.
  rewrite (step_signal_entry _ _ _ _ HF Hline), signal_entry_halves.
  split.
  - intros Hlen. unfold signal_fields, index.
    destruct ts as [|t1 [|t2 [|t3 [|t4 [|t5 rest]]]]]; simpl in *;
      first [reflexivity | lia].
  - intros Hlen.
    destruct (signal_fields literal_eval ("SG_" :: ts)) as [sg|e] eqn:Hsg.
    + apply signal_fields_inv in Hsg as [_ Hdesc].
      apply lookup_lt_Some in Hdesc. simpl in Hdesc. lia.
    + exists e. reflexivity.
Qed.

Lemma signal_entry_short_witness :
  step Py.literal_eval engine_open " SG_ RPM : 15|16 (0.25,0)"
  = Raise IndexError
  ∧ ∃ e, step Py.literal_eval engine_open
           " SG_ RPM : 15|16 (0.25,0) [0|16383.75]" = Raise e.
Proof.
  split.
  - apply (signal_entry_short Py.literal_eval engine_open
             " SG_ RPM : 15|16 (0.25,0)" ["RPM"; ":"; "15|16"; "(0.25,0)"]
             eq_refl eq_refl).
    simpl. lia.
  - apply (signal_entry_short Py.literal_eval engine_open
             " SG_ RPM : 15|16 (0.25,0) [0|16383.75]"
             ["RPM"; ":"; "15|16"; "(0.25,0)"; "[0|16383.75]"]
             eq_refl eq_refl).
    simpl. lia.
Defined.

(** X8: an [SG_] line met under an open message whose bit-range token has
    neither [@] nor [|] is never accepted: it raises [IndexError] or
    [ValueError], and with six tokens or more, [IndexError] when the
    token is an integer and [ValueError] when it is not. *)
Theorem bit_range_without_separator
    (literal_eval : string → result pyval) st line name mux rng rest :
  Flag st = true →
  Py.split line = "SG_" :: name :: mux :: rng :: rest →
  lacks "@" rng = true →
  lacks "|" rng = true →
  (step literal_eval st line = Raise IndexError
   ∨ step literal_eval st line = Raise ValueError)
  ∧ ((2 ≤ length rest)%nat →
     (∀ e, Py.int rng = Ok e
           → step literal_eval st line = Raise IndexError)
     ∧ (Py.int rng = Raise ValueError
        → step literal_eval st line = Raise ValueError)).
Proof.
  intros HF Hline Hat Hbar.
  rewrite (step_signal_entry _ _ _ _ HF Hline), signal_entry_halves.
  unfold signal_fields, index.
  destruct rest as [|fo [|mm rest]]; simpl;
    try (split; [by left | intros; lia]).
  rewrite (split_range_no_separator rng Hat Hbar). simpl.
  destruct (Py.int rng) as [e|e] eqn:Hint; simpl.
  - split; [by left|]. intros _. split; [done|]. done.
  - apply int_Raise in Hint as ->. split; [by right|]. intros _.
    split; [|done]. by intros ? [=].
Qed.

Lemma bit_range_without_separator_witness :
  step Py.literal_eval engine_open " SG_ RPM : 15 (0.25,0) [0|1] rpm"
  = Raise IndexError
  ∧ step Py.literal_eval engine_open " SG_ RPM : 15:16 (0.25,0) [0|1] rpm"
    = Raise ValueError.
Proof.
  split.
  - destruct (bit_range_without_separator Py.literal_eval engine_open
                " SG_ RPM : 15 (0.25,0) [0|1] rpm"
                "RPM" ":" "15" ["(0.25,0)"; "[0|1]"; "rpm"]
                eq_refl eq_refl eq_refl eq_refl) as [_ H].
    apply (proj1 (H ltac:(simpl; lia)) 15). reflexivity.
  - destruct (bit_range_without_separator Py.literal_eval engine_open
                " SG_ RPM : 15:16 (0.25,0) [0|1] rpm"
                "RPM" ":" "15:16" ["(0.25,0)"; "[0|1]"; "rpm"]
                eq_refl eq_refl eq_refl eq_refl) as [_ H].
    apply (proj2 (H ltac:(simpl; lia))). reflexivity.
Defined.

(** X9: pieces of the bit-range token after the second are ignored.  A
    token [<e>|<l>@<tail>], as DBC files write it with a byte-order and
    sign suffix, stores [end_bit = e] and [length = l] whatever the tail
    is, the other fields converting. *)
Theorem bit_range_suffix_ignored
    (literal_eval : string → result pyval)
    st k m line name mux se sep1 sl sep2 tail fo mm desc rest e l
    factor offset minimum maximum :
  Flag st = true →
  current_BO st = Some k →
  can_db st !! k = Some m →
  Py.split line
  = "SG_" :: name :: mux :: (se ++ String sep1 (sl ++ String sep2 tail))
      :: fo :: mm :: desc :: rest →
  sep1 = "@"%char ∨ sep1 = "|"%char →
  sep2 = "@"%char ∨ sep2 = "|"%char →
  Py.int se = Ok e →
  Py.int sl = Ok l →
  pair_evaluates literal_eval (factor_offset fo) factor offset →
  pair_evaluates literal_eval (value_range mm) minimum maximum →
  step literal_eval st line
  = Ok {| can_db :=
            <[k := with_signal m name
                     {| sg_end_bit := e; sg_length := l;
                        sg_factor := factor; sg_offset := offset;
                        sg_minimum := minimum; sg_maximum := maximum;
                        sg_description := desc; sg_value := PyNone |}]>
              (can_db st);
          Flag := Flag st;
          current_BO := current_BO st |}.
Proof.
  intros HF Hk Hm Hline H1 H2 He Hl Hfo Hmm.
  rewrite (step_signal_entry _ _ _ _ HF Hline).
  apply (signal_entry_ok literal_eval st k m name mux _ fo mm desc rest
           se sl (split_range tail) e l factor offset minimum maximum);
    try done.
  by apply (split_range_more se sl tail sep1 sep2 e l).
Qed.

Lemma bit_range_suffix_ignored_witness :
  step Py.literal_eval engine_open
    " SG_ RPM : 15|16@1+ (0.25,0) [0|16383.75] rpm"
  = Ok {| can_db := <[100 := with_signal engine_message "RPM" rpm_signal]>
                      (can_db engine_open);
          Flag := true;
          current_BO := Some 100 |}.
Proof.
  apply (bit_range_suffix_ignored Py.literal_eval engine_open 100
           engine_message " SG_ RPM : 15|16@1+ (0.25,0) [0|16383.75] rpm"
           "RPM" ":" "15" "|"%char "16" "@"%char "1+"
           "(0.25,0)" "[0|16383.75]" "rpm" [] 15 16
           (PyFloat (1 # 4)) (PyInt 0) (PyInt 0) (PyFloat (65535 # 4))).
  - reflexivity.
  - reflexivity.
  - reflexivity.
  - reflexivity.
  - right. reflexivity.
  - left. reflexivity.
  - reflexivity.
  - reflexivity.
  - exists "0.25", "0", []. repeat split; reflexivity.
  - exists "0", "16383.75", []. repeat split; reflexivity.
Defined.

(** X10: the fields of an accepted [SG_] line.  Under an open message, a
    line [SG_ name mux <e><sep><l> (<f>,<o>) [<min>|<max>] desc ...], with
    [sep] one of [@] and [|], the two range parts integers and the four
    value pieces evaluating, stores under [name], in the open message, the
    signal with these eight fields: the description is the seventh token
    alone and the value slot is [None]. *)
Theorem signal_entry_fields
    (literal_eval : string → result pyval)
    st k m line name mux se sep sl fa fb va vb desc rest e l
    factor offset minimum maximum :
  Flag st = true →
  current_BO st = Some k →
  can_db st !! k = Some m →
  Py.split line
  = "SG_" :: name :: mux :: (se ++ String sep sl)
      :: ("(" ++ fa ++ "," ++ fb ++ ")")
      :: ("[" ++ va ++ "|" ++ vb ++ "]") :: desc :: rest →
  sep = "@"%char ∨ sep = "|"%char →
  Py.int se = Ok e →
  Py.int sl = Ok l →
  plain_piece fa = true → plain_piece fb = true →
  plain_piece va = true → plain_piece vb = true →
  literal_eval fa = Ok factor →
  literal_eval fb = Ok offset →
  literal_eval va = Ok minimum →
  literal_eval vb = Ok maximum →
  step literal_eval st line
  = Ok {| can_db :=
            <[k := with_signal m name
                     {| sg_end_bit := e; sg_length := l;
                        sg_factor := factor; sg_offset := offset;
                        sg_minimum := minimum; sg_maximum := maximum;
                        sg_description := desc; sg_value := PyNone |}]>
              (can_db st);
          Flag := true;
          current_BO := Some k |}.
Proof.
  intros HF Hk Hm Hline Hsep He Hl Hfa Hfb Hva Hvb Hf Ho Hmin Hmax.
  rewrite (step_signal_entry _ _ _ _ HF Hline).
  etransitivity; [|by rewrite <- HF, <- Hk].
  apply (signal_entry_ok literal_eval st k m name mux _ _ _ desc rest
           se sl [] e l factor offset minimum maximum); try done.
  - by apply (split_range_parts se sl sep e l).
  - exists fa, fb, []. by rewrite factor_offset_pieces.
  - exists va, vb, []. by rewrite value_range_pieces.
Qed.

Lemma signal_entry_fields_witness :
  step Py.literal_eval engine_open
    " SG_ Temp : 7@8 (1,-40) [-40|215] coolant temp"
  = Ok {| can_db :=
            <[100 := with_signal engine_message "Temp"
                       {| sg_end_bit := 7; sg_length := 8;
                          sg_factor := PyInt 1; sg_offset := PyInt (-40);
                          sg_minimum := PyInt (-40); sg_maximum := PyInt 215;
                          sg_description := "coolant"; sg_value := PyNone |}]>
              (can_db engine_open);
          Flag := true;
          current_BO := Some 100 |}.
Proof.
  apply (signal_entry_fields Py.literal_eval engine_open 100 engine_message
           " SG_ Temp : 7@8 (1,-40) [-40|215] coolant temp"
           "Temp" ":" "7" "@"%char "8" "1" "-40" "-40" "215" "coolant" ["temp"]);
    first [reflexivity | left; reflexivity].
Defined.

(** ** How inputs compose *)

Lemma store_signal_with_db db st line_array sg :
  open_ok st → Flag st = true →
  store_signal (with_db db st) line_array sg
  = on_result (with_db db) (store_signal st line_array sg).
Proof.
  intros Hok HF. destruct (Hok HF) as (k & m & Hopen).
  unfold store_signal. rewrite Hopen.
  unfold open_message in *. simpl.
  destruct (current_BO st) as [k'|]; [|done].
  destruct (can_db st !! k') as [m'|] eqn:Hm; [|done].
  injection Hopen as -> ->.
  rewrite (lookup_union_Some_l _ _ _ _ Hm). simpl.
  destruct (index line_array 1) as [name|e]; simpl; [|done].
  unfold with_db. simpl. by rewrite insert_union_l.
Qed.

Lemma message_start_with_db db st line_array :
  message_start (with_db db st) line_array
  = on_result (with_db db) (message_start st line_array).
Proof.
  unfold message_start.
  repeat (match goal with
          | |- mbind _ ?m = _ => destruct m; simpl; [|reflexivity]
          end).
  unfold with_db. simpl. by rewrite insert_union_l.
Qed.

Lemma step_with_db (literal_eval : string → result pyval) db st line :
  open_ok st →
  step literal_eval (with_db db st) line
  = on_result (with_db db) (step literal_eval st line).
Proof.
  intros Hok. unfold step.
  destruct (length (Py.split line) =? 0)%nat; [done|].
  change (Flag (with_db db st)) with (Flag st).
  destruct (Flag st && first_is (Py.split line) "SG_") eqn:Hsg.
  { apply andb_true_iff in Hsg as [HF _].
    rewrite !signal_entry_halves.
    destruct (signal_fields literal_eval (Py.split line)); simpl; [|done].
    by apply store_signal_with_db. }
  destruct (first_is (Py.split line) "BO_"); [|done].
  apply message_start_with_db.
Qed.

Lemma run_with_db (literal_eval : string → result pyval) db st dbc_file :
  open_ok st →
  run literal_eval (with_db db st) dbc_file
  = on_result (with_db db) (run literal_eval st dbc_file).
Proof.
  revert st; induction dbc_file as [|line rest IH]; intros st Hok; simpl.
  - done.
  - rewrite step_with_db by done.
    destruct (step literal_eval st line) as [st1|e] eqn:Hstep; simpl; [|done].
    apply IH. eapply step_open_ok; eauto.
Qed.

(** X11: the table of two inputs joined by a line without token is the
    union of their tables, the entries of the second input taking the
    place of those of the first under the same id; when the second input
    raises an exception, so does the joined input. *)
Theorem table_of_joined_inputs
    (literal_eval : string → result pyval)
    (pre post : list string) (separator : string) db1 :
  get_can literal_eval pre = Ok db1 →
  blank separator = true →
  get_can literal_eval (pre ++ separator :: post)%list
  = match get_can literal_eval post with
    | Ok db2 => Ok (db2 ∪ db1)
    | Raise e => Raise e
    end.
Proof.
  unfold get_can. intros Hpre Hsep.
  apply bind_Ok in Hpre as (st1 & Hrun & [= <-]).
  rewrite run_app, Hrun. simpl.
  rewrite step_blank by by apply split_nil_blank. simpl.
  assert ({| can_db := can_db st1; Flag := false; current_BO := None |}
          = with_db (can_db st1) initial) as ->.
  { unfold with_db, initial. simpl. f_equal. by rewrite (left_id_L ∅ (∪)). }
  rewrite run_with_db by apply open_ok_initial.
  by destruct (run literal_eval initial post).
Qed.

Lemma table_of_joined_inputs_witness :
  get_can Py.literal_eval
    ["BO_ 100 EngineData: 8 PowertrainECU"; rpm_line; " ";
     "BO_ 200 BrakeData: 4 ChassisECU"]
  = Ok ({[ 200 := {| bo_family := "ChassisECU"; bo_genus := "BrakeData";
                     bo_species := ∅; bo_frame_bytes := 4 |} ]}
        ∪ can_db engine_with_rpm).
Proof.
  apply (table_of_joined_inputs Py.literal_eval
           ["BO_ 100 EngineData: 8 PowertrainECU"; rpm_line]
           ["BO_ 200 BrakeData: 4 ChassisECU"] " " (can_db engine_with_rpm)).
  - vm_compute. reflexivity.
  - reflexivity.
Defined.

(** X12: a line whose first token is neither [BO_] nor [SG_] can be put
    anywhere in the input, or taken out of it, without any effect on what
    [get_can] returns or raises. *)
Theorem unrecognised_line_removable
    (literal_eval : string → result pyval)
    (pre post : list string) line t ts :
  Py.split line = t :: ts →
  t ≠ "BO_" →
  t ≠ "SG_" →
  get_can literal_eval (pre ++ line :: post)%list
  = get_can literal_eval (pre ++ post)%list.
Proof.
  intros Hline Hbo Hsg. unfold get_can. rewrite !run_app.
  destruct (run literal_eval initial pre) as [st|e]; simpl; [|done].
  by rewrite (step_skip literal_eval st line t ts Hline Hbo (or_intror Hsg)).
Qed.

Lemma unrecognised_line_removable_witness :
  get_can Py.literal_eval
    ["BO_ 100 EngineData: 8 PowertrainECU"; "CM_ SG_ 100 RPM text ;"; rpm_line]
  = get_can Py.literal_eval ["BO_ 100 EngineData: 8 PowertrainECU"; rpm_line].
Proof.
  apply (unrecognised_line_removable Py.literal_eval
           ["BO_ 100 EngineData: 8 PowertrainECU"] [rpm_line]
           "CM_ SG_ 100 RPM text ;" "CM_" ["SG_"; "100"; "RPM"; "text"; ";"]).
  - reflexivity.
  - discriminate.
  - discriminate.
Defined.

Lemma message_start_any_flag st line_array :
  message_start {| can_db := can_db st; Flag := false; current_BO := None |}
    line_array
  = message_start st line_array.
Proof. reflexivity. Qed.

(** X13: where lines without token matter.  Such a line has no effect at
    the end of the input, directly before a [BO_] line, or directly
    before another line without token; it only keeps the [SG_] lines that
    follow it from being stored. *)
Theorem blank_line_redundant
    (literal_eval : string → result pyval) (separator : string) :
  blank separator = true →
  (∀ dbc_file,
      get_can literal_eval (dbc_file ++ [separator])%list
      = get_can literal_eval dbc_file)
  ∧ (∀ (pre post : list string) line,
        first_is (Py.split line) "BO_" = true →
        get_can literal_eval (pre ++ separator :: line :: post)%list
        = get_can literal_eval (pre ++ line :: post)%list)
  ∧ (∀ (pre post : list string) line,
        blank line = true →
        get_can literal_eval (pre ++ separator :: line :: post)%list
        = get_can literal_eval (pre ++ line :: post)%list).
Proof.
  intros Hsep%split_nil_blank. unfold get_can. split; [|split].
  - intros dbc_file. rewrite run_app.
    destruct (run literal_eval initial dbc_file) as [st|e]; simpl; [|done].
    by rewrite step_blank.
  - intros pre post line [ts Hline]%first_is_cons. rewrite !run_app.
    destruct (run literal_eval initial pre) as [st|e]; simpl; [|done].
    rewrite step_blank by done. simpl.
    rewrite !(step_message_start _ _ _ _ Hline).
    by rewrite message_start_any_flag.
  - intros pre post line Hline%split_nil_blank. rewrite !run_app.
    destruct (run literal_eval initial pre) as [st|e]; simpl; [|done].
    rewrite (step_blank _ _ separator) by done. simpl.
    by rewrite !(step_blank _ _ line) by done.
Qed.

Lemma blank_line_redundant_witness :
  get_can Py.literal_eval
    ["BO_ 100 EngineData: 8 PowertrainECU"; rpm_line; "  "]
  = get_can Py.literal_eval ["BO_ 100 EngineData: 8 PowertrainECU"; rpm_line].
Proof.
  destruct (blank_line_redundant Py.literal_eval "  " eq_refl) as [Hend _].
  apply (Hend ["BO_ 100 EngineData: 8 PowertrainECU"; rpm_line]).
Defined.

(** ** White space and exceptions *)

Lemma split_from_blank_tail tok ws :
  blank ws = true →
  Py.split_from tok ws = Py.split_from tok "".
Proof.
  revert tok; induction ws as [|c ws IH]; intros tok; [done|].
  simpl. intros [Hc Hws]%andb_true_iff. rewrite Hc.
  rewrite (IH "" Hws). simpl. done.
Qed.

Lemma split_from_app_blank tok s ws :
  blank ws = true →
  Py.split_from tok (s ++ ws) = Py.split_from tok s.
Proof.
  intros Hws. revert tok; induction s as [|c s IH]; intros tok.
  - rewrite append_empty. by apply split_from_blank_tail.
  - rewrite append_cons. simpl. by rewrite !IH.
Qed.

Lemma split_blank_app ws s :
  blank ws = true → Py.split (ws ++ s) = Py.split s.
Proof.
  unfold Py.split. induction ws as [|c ws IH]; [done|].
  intros H. simpl in H. apply andb_true_iff in H as [Hc Hws].
  rewrite append_cons. simpl. rewrite Hc. simpl. by apply IH.
Qed.

Lemma split_from_app_space tok a c b :
  Py.is_space c = true →
  Py.split_from tok (a ++ String c b)
  = (Py.split_from tok a ++ Py.split b)%list.
Proof.
  intros Hc. revert tok; induction a as [|x a IH]; intros tok.
  - rewrite append_empty. simpl. rewrite Hc. by destruct (Py.is_empty tok).
  - rewrite append_cons. simpl.
    destruct (Py.is_space x); [|apply IH].
    destruct (Py.is_empty tok); [apply IH|].
    simpl. by rewrite IH.
Qed.

(** X14: white space around a line has no effect: a line padded with white
    space on either side, such as the line break a line read from a file
    ends with, has the tokens of the bare line and is processed like it.
    The tokens of a line with a white-space character somewhere are the
    tokens of the part before it followed by those of the part after
    it. *)
Theorem white_space_padding
    (literal_eval : string → result pyval) st (line left right : string) :
  blank left = true →
  blank right = true →
  Py.split (left ++ line ++ right) = Py.split line
  ∧ step literal_eval st (left ++ line ++ right) = step literal_eval st line
  ∧ ∀ a c b, Py.is_space c = true →
             Py.split (a ++ String c b) = (Py.split a ++ Py.split b)%list.
Proof.
  intros Hl Hr.
  assert (Py.split (left ++ line ++ right) = Py.split line) as Hsplit.
  { rewrite split_blank_app by done. by apply split_from_app_blank. }
  split; [done|]. split.
  - unfold step. by rewrite Hsplit.
  - intros a c b Hc. by apply split_from_app_space.
Qed.

Lemma white_space_padding_witness :
  step Py.literal_eval initial
    ("  " ++ "BO_ 100 EngineData: 8 PowertrainECU" ++ String (ascii_of_N 10) "")
  = step Py.literal_eval initial "BO_ 100 EngineData: 8 PowertrainECU".
Proof.
  destruct (white_space_padding Py.literal_eval initial
              "BO_ 100 EngineData: 8 PowertrainECU" "  "
              (String (ascii_of_N 10) "") eq_refl eq_refl) as (_ & Hstep & _).
  exact Hstep.
Defined.

(** The exceptions of the two halves of the signal branch and of the
    message branch. *)
Ltac raised :=
  intros [= <-];
  match goal with
  | H : index _ _ = Raise _ |- _ =>
      apply index_Raise in H as [-> _]; by left
  | H : Py.int _ = Raise _ |- _ =>
      apply int_Raise in H as ->; right; by left
  | H : _ = Raise _ |- _ => right; right; eauto
  end.

Lemma signal_fields_raises (literal_eval : string → result pyval) line_array e :
  signal_fields literal_eval line_array = Raise e →
  e = IndexError ∨ e = ValueError ∨ ∃ s, literal_eval s = Raise e.
Proof.
  unfold signal_fields.
  repeat (match goal with
          | |- mbind _ ?m = Raise _ → _ =>
              let H := fresh "H" in
              destruct m eqn:H; simpl; [clear H | raised]
          end).
  done.
Qed.

Lemma message_start_raises st line_array e :
  message_start st line_array = Raise e → e = IndexError ∨ e = ValueError.
Proof.
  unfold message_start.
  repeat (match goal with
          | |- mbind _ ?m = Raise _ → _ =>
              let H := fresh "H" in
              destruct m eqn:H; simpl;
              [clear H
              | intros [= <-];
                first [apply index_Raise in H as [-> _]; by left
                      | apply int_Raise in H as ->; by right]]
          end).
  done.
Qed.

Lemma step_raises (literal_eval : string → result pyval) st line e :
  open_ok st →
  step literal_eval st line = Raise e →
  e = IndexError ∨ e = ValueError ∨ ∃ s, literal_eval s = Raise e.
Proof.
  intros Hok Hstep.
  destruct (step_cases literal_eval st line)
    as [[_ H] | [(ts & _ & HF & H) | [(ts & _ & H)
        | (t & ts & _ & _ & _ & H)]]];
    rewrite H in Hstep; try done.
  - rewrite signal_entry_halves in Hstep.
    destruct (signal_fields literal_eval ("SG_" :: ts)) as [sg|e'] eqn:Hsg;
      simpl in Hstep.
    + destruct (Hok HF) as (k & m & Hopen).
      unfold store_signal in Hstep. rewrite Hopen in Hstep. simpl in Hstep.
      destruct (index ("SG_" :: ts) 1) eqn:Hname; simpl in Hstep; [done|].
      injection Hstep as <-. apply index_Raise in Hname as [-> _]. by left.
    + injection Hstep as <-. by apply (signal_fields_raises _ _ _ Hsg).
  - apply message_start_raises in Hstep as [-> | ->]; [by left | right; by left].
Qed.

(** X15: the exceptions of [get_can].  Whatever the input, [get_can]
    raises nothing but [IndexError], [ValueError] and what the evaluator
    of the value tokens raises on some token; the lookup
    [can_db[current_BO]] raises no [KeyError]. *)
Theorem get_can_exceptions
    (literal_eval : string → result pyval) (dbc_file : list string) e :
  get_can literal_eval dbc_file = Raise e →
  e = IndexError ∨ e = ValueError ∨ ∃ s, literal_eval s = Raise e.
Proof.
  intros H.
  destruct (run_outcome literal_eval initial dbc_file)
    as [[st Hrun] | (pre & line & post & st & e' & _ & Hpre & Hline & Hrun)];
    unfold get_can in H; rewrite Hrun in H; [done|].
  injection H as <-.
  apply (step_raises literal_eval st line e'); [|done].
  eapply run_open_ok; [apply open_ok_initial | exact Hpre].
Qed.

Lemma get_can_exceptions_witness :
  SyntaxError = IndexError ∨ SyntaxError = ValueError
  ∨ ∃ s, Py.literal_eval s = Raise SyntaxError.
Proof.
  apply (get_can_exceptions Py.literal_eval
           ["BO_ 100 EngineData: 8 PowertrainECU";
            " SG_ RPM : 15|16 (007,0) [0|1] rpm"]).
  reflexivity.
Defined.

(** X16: the open message persists.  Over lines that have a token and are
    no [BO_] lines, as long as they are accepted, [Flag] and [current_BO]
    keep their values, the table keeps its keys, and every message other
    than the one [current_BO] names keeps its entry: [SG_] lines are
    stored under the most recent [BO_] line and nowhere else. *)
Theorem open_message_persists
    (literal_eval : string → result pyval) st (lines : list string) st' :
  Forall (λ line, Py.split line ≠ []
                  ∧ first_is (Py.split line) "BO_" = false) lines →
  run literal_eval st lines = Ok st' →
  Flag st' = Flag st
  ∧ current_BO st' = current_BO st
  ∧ dom (can_db st') = dom (can_db st)
  ∧ ∀ k, current_BO st ≠ Some k → can_db st' !! k = can_db st !! k.
Proof.
  intros Hall. revert st.
  induction Hall as [|line rest [Hne Hbo] _ IH]; intros st; simpl.
  - by intros [= <-].
  - intros H. apply bind_Ok in H as (st1 & Hstep & Hrest).
    assert (Flag st1 = Flag st ∧ current_BO st1 = current_BO st
            ∧ dom (can_db st1) = dom (can_db st)
            ∧ ∀ k, current_BO st ≠ Some k → can_db st1 !! k = can_db st !! k)
      as (HF & Hcur & Hdom & Hother).
    { destruct (step_cases literal_eval st line)
        as [[Hline _] | [(ts & _ & _ & H) | [(ts & Hline & _)
            | (t & ts & _ & _ & _ & H)]]].
      - done.
      - rewrite H in Hstep. apply signal_entry_inv in Hstep
          as (k & m & name & sg & Hk & Hm & _ & _ & _ & ->).
        simpl. split; [done|]. split; [done|]. split.
        + rewrite dom_insert_L.
          apply subseteq_union_1_L, singleton_subseteq_l, elem_of_dom. eauto.
        + intros k' Hk'. apply lookup_insert_ne. congruence.
      - rewrite Hline in Hbo. discriminate Hbo.
      - rewrite H in Hstep. by injection Hstep as <-. }
    destruct (IH st1 Hrest) as (HF' & Hcur' & Hdom' & Hother').
    split; [congruence|]. split; [congruence|]. split; [congruence|].
    intros k Hk. rewrite Hother' by congruence. by apply Hother.
Qed.

Lemma open_message_persists_witness :
  Flag engine_with_rpm = Flag engine_open
  ∧ current_BO engine_with_rpm = current_BO engine_open
  ∧ dom (can_db engine_with_rpm) = dom (can_db engine_open)
  ∧ ∀ k, current_BO engine_open ≠ Some k →
         can_db engine_with_rpm !! k = can_db engine_open !! k.
Proof.
  apply (open_message_persists Py.literal_eval engine_open
           ["CM_ a comment"; rpm_line] engine_with_rpm).
  - repeat (constructor; [split; [discriminate | reflexivity]|]). constructor.
  - vm_compute. reflexivity.
Defined.

(** * The numeric fields *)

(** ** Notions of the statements *)








(** ** The tokens of a line hold no white space *)



(** ** [Py.int] accepts the integer literals and nothing else *)




(** ** The evaluator on names and on numeric literals *)














(** ** The value tokens and the integer tokens of a line *)










